(** * Hotel quote parser: the API route and the result page

    A shallow embedding of [app/api/process/route.ts] (the [POST] handler and
    [transformMicroserviceResponse]) and of the pure helpers of
    [app/page.tsx] ([getCalculatedTotalQuote], [getFnbBreakdown],
    [getMeetingRoomConditions]), with the properties the specification
    states about them.

    JavaScript numbers are IEEE 754 binary64 values; they are modelled by
    Rocq's primitive floats, which are the same format with the same
    round-to-nearest arithmetic. *)

From Stdlib Require Import Bool List String Ascii ZArith Floats.
Import ListNotations.

Set Warnings "-inexact-float,-register-all,-notation-for-abbreviation".

Local Open Scope string_scope.

(* ================================================================== *)
(** ** JavaScript values *)
(* ================================================================== *)

Module JS.

(** The values a parsed JSON document (and the [any]-typed code reading it)
    can hold.  An object is the list of its own properties, each name
    once. *)
Inductive value : Type :=
| VUndefined
| VNull
| VBool (b : bool)
| VNum (x : float)
| VStr (s : string)
| VArr (items : list value)
| VObj (fields : list (string * value)).

Coercion VStr : string >-> value.

Notation undefined := VUndefined.
Notation null := VNull.

(** What a [throw] carries.  The handler's [catch] only logs it. *)
Inductive exn : Type :=
| TypeError
| SyntaxError
| NetworkError
| MicroserviceError (status : Z) (errorText : string).

Inductive result (A : Type) : Type :=
| Return (a : A)
| Throw (e : exn).

Arguments Return {A} a.
Arguments Throw {A} e.

(** [ToBoolean]: [undefined], [null], [false], [+0], [-0], [NaN] and the
    empty string are falsy; everything else, every object included, is
    truthy. *)
Definition truthyNum (x : float) : bool :=
  negb (PrimFloat.eqb x 0 || PrimFloat.is_nan x).

Definition truthy (v : value) : bool :=
  match v with
  | VUndefined | VNull => false
  | VBool b => b
  | VNum x => truthyNum x
  | VStr s => negb (String.eqb s EmptyString)
  | VArr _ | VObj _ => true
  end.

Definition isNullish (v : value) : bool :=
  match v with
  | VUndefined | VNull => true
  | _ => false
  end.

Fixpoint lookup (k : string) (fields : list (string * value)) : value :=
  match fields with
  | [] => VUndefined
  | (k', v) :: rest => if String.eqb k k' then v else lookup k rest
  end.

(** [v.k] for a [v] that is not [null] or [undefined] (on those the read
    throws, which the callers below decide before they read).  The keys
    the program reads are fixed identifiers, none of them an array index,
    [length] or a prototype member, so a read on a primitive or an array
    yields [undefined]. *)
Definition prop (v : value) (k : string) : value :=
  match v with
  | VObj fields => lookup k fields
  | _ => VUndefined
  end.

(** [v?.k] *)
Definition optChain (v : value) (k : string) : value :=
  if isNullish v then VUndefined else prop v k.

(** [a || b], [a && b], [a ?? b] *)
Definition jsOr (a b : value) : value := if truthy a then a else b.
Definition jsAnd (a b : value) : value := if truthy a then b else a.
Definition jsNullish (a b : value) : value := if isNullish a then b else a.

(** [obj.k = v] on an object: replaces the property or adds it last. *)
Fixpoint assign (k : string) (v : value) (fields : list (string * value))
  : list (string * value) :=
  match fields with
  | [] => [(k, v)]
  | (k', v') :: rest =>
      if String.eqb k k' then (k, v) :: rest else (k', v') :: assign k v rest
  end.

Definition setProp (obj : value) (k : string) (v : value) : value :=
  match obj with
  | VObj fields => VObj (assign k v fields)
  | _ => obj
  end.

Declare Scope js_scope.
Delimit Scope js_scope with js.
Bind Scope js_scope with value.

Notation "v # k" := (prop v k) (at level 20, left associativity) : js_scope.
Notation "v ?# k" := (optChain v k) (at level 20, left associativity) : js_scope.
Notation "a ||| b" := (jsOr a b) (at level 50, left associativity) : js_scope.
Notation "a &&& b" := (jsAnd a b) (at level 40, left associativity) : js_scope.
Notation "a ?? b" := (jsNullish a b) (at level 51, left associativity) : js_scope.

(** [JSON.parse(JSON.stringify(v))], what a body is once it has travelled as
    a JSON response: a property whose value is [undefined] is left out, an
    [undefined] array element, [NaN] and the infinities become [null], and
    [-0] becomes [0]. *)
Fixpoint jsonRoundTrip (v : value) : value :=
  match v with
  | VUndefined => VUndefined
  | VNull => VNull
  | VBool b => VBool b
  | VNum x =>
      if PrimFloat.is_finite x
      then (if PrimFloat.eqb x 0 then VNum 0 else VNum x)
      else VNull
  | VStr s => VStr s
  | VArr items =>
      VArr (map (fun item =>
                   match item with
                   | VUndefined => VNull
                   | _ => jsonRoundTrip item
                   end) items)
  | VObj fields =>
      VObj ((fix properties (fs : list (string * value)) : list (string * value) :=
               match fs with
               | [] => []
               | (k, VUndefined) :: rest => properties rest
               | (k, x) :: rest => (k, jsonRoundTrip x) :: properties rest
               end) fields)
  end.

(** [s.trim()] is the empty string: [s] consists of white space and line
    terminators only.  Strings are read as UTF-8; the code points are
    U+0009 to U+000D, U+0020, U+00A0, U+1680, U+2000 to U+200A, U+2028,
    U+2029, U+202F, U+205F, U+3000 and U+FEFF. *)
Definition whiteSpace1 (a : ascii) : bool :=
  let n := nat_of_ascii a in
  (Nat.leb 9 n && Nat.leb n 13) || Nat.eqb n 32.

Definition whiteSpace2 (a b : ascii) : bool :=
  Nat.eqb (nat_of_ascii a) 194 && Nat.eqb (nat_of_ascii b) 160.

Definition whiteSpace3 (a b c : ascii) : bool :=
  let x := nat_of_ascii a in
  let y := nat_of_ascii b in
  let z := nat_of_ascii c in
  (Nat.eqb x 225 && Nat.eqb y 154 && Nat.eqb z 128)
  || (Nat.eqb x 226 && Nat.eqb y 128
      && ((Nat.leb 128 z && Nat.leb z 138) || Nat.eqb z 168 || Nat.eqb z 169
          || Nat.eqb z 175))
  || (Nat.eqb x 226 && Nat.eqb y 129 && Nat.eqb z 159)
  || (Nat.eqb x 227 && Nat.eqb y 128 && Nat.eqb z 128)
  || (Nat.eqb x 239 && Nat.eqb y 187 && Nat.eqb z 191).

Fixpoint trimsToEmpty (s : string) : bool :=
  match s with
  | EmptyString => true
  | String a rest =>
      if whiteSpace1 a then trimsToEmpty rest else
      match rest with
      | EmptyString => false
      | String b rest2 =>
          if whiteSpace2 a b then trimsToEmpty rest2 else
          match rest2 with
          | EmptyString => false
          | String c rest3 =>
              if whiteSpace3 a b c then trimsToEmpty rest3 else false
          end
      end
  end.

End JS.

(* ================================================================== *)
(** ** [app/api/process/route.ts] *)
(* ================================================================== *)

Module Route.
Import JS.
Local Open Scope js_scope.

(** *** [transformMicroserviceResponse] *)

Definition isOldFormat (microserviceData : value) : value :=
  microserviceData # "totals" &&& microserviceData # "extras".

Definition transformOld (microserviceData : value) : value :=
  let totals := microserviceData # "totals" ||| VObj [] in
  let extras := microserviceData # "extras" ||| VObj [] in
  VObj [
    ("total_quote", VObj [
      ("status", totals # "total_quote" ?# "status" ||| "not_found");
      ("value", totals # "total_quote" ?# "amount" ?? totals # "total_quote" ?# "value" ?? null);
      ("currency", totals # "total_quote" ?# "currency" ||| "USD");
      ("provenance_snippet", totals # "total_quote" ?# "provenance_snippet" ||| null);
      ("notes", totals # "total_quote" ?# "notes" ||| EmptyString) ]);
    ("guestroom_total", VObj [
      ("status", totals # "guestroom_total" ?# "status" ||| "not_found");
      ("value", totals # "guestroom_total" ?# "amount" ?? totals # "guestroom_total" ?# "value" ?? null);
      ("currency", totals # "guestroom_total" ?# "currency" ||| "USD");
      ("provenance_snippet", totals # "guestroom_total" ?# "provenance_snippet" ||| null);
      ("notes", totals # "guestroom_total" ?# "notes" ||| EmptyString) ]);
    ("meeting_room_total", VObj [
      ("status", totals # "meeting_room_total" ?# "status" ||| "not_found");
      ("value", totals # "meeting_room_total" ?# "amount" ?? totals # "meeting_room_total" ?# "value" ?? null);
      ("currency", totals # "meeting_room_total" ?# "currency" ||| "USD");
      ("provenance_snippet", totals # "meeting_room_total" ?# "provenance_snippet" ||| null);
      ("notes", totals # "meeting_room_total" ?# "notes" ||| EmptyString) ]);
    ("fnb_total", VObj [
      ("status", totals # "fnb_total" ?# "status" ||| "not_found");
      ("value", totals # "fnb_total" ?# "amount" ?? totals # "fnb_total" ?# "value" ?? null);
      ("currency", totals # "fnb_total" ?# "currency" ||| "USD");
      ("provenance_snippet", totals # "fnb_total" ?# "provenance_snippet" ||| null);
      ("notes", totals # "fnb_total" ?# "notes" ||| EmptyString) ]);
    ("extras", VObj [
      ("room_nights", extras # "room_nights" ||| null);
      ("nightly_rate", extras # "nightly_rate" ||| null);
      ("tax_rate_pct", extras # "tax_rate_pct" ||| null);
      ("service_rate_pct", extras # "service_rate_pct" ||| null);
      ("fnb_minimum", extras # "fnb_minimum" ||| null);
      ("proposal_url", extras # "proposal_url" ||| null);
      ("guestroom_base", extras # "guestroom_base" ||| null);
      ("guestroom_taxes_fees", extras # "guestroom_taxes_fees" ||| null);
      ("estimated_fnb_gross", extras # "estimated_fnb_gross" ||| null);
      ("effective_value_offsets", extras # "effective_value_offsets" ||| VArr []) ])
  ].

Definition transformNew (microserviceData : value) : value :=
  VObj [
    ("total_quote", VObj [
      ("status", microserviceData # "total_quote" ?# "status" ||| "not_found");
      ("value", microserviceData # "total_quote" ?# "amount" ?? microserviceData # "total_quote" ?# "value" ?? null);
      ("currency", microserviceData # "total_quote" ?# "currency" ||| "USD");
      ("provenance_snippet", microserviceData # "total_quote" ?# "provenance_snippet" ||| null);
      ("notes", microserviceData # "total_quote" ?# "notes" ||| EmptyString) ]);
    ("guestroom_total", VObj [
      ("status", microserviceData # "guestroom_total" ?# "status" ||| "not_found");
      ("value", microserviceData # "guestroom_total" ?# "amount" ?? microserviceData # "guestroom_total" ?# "value" ?? null);
      ("currency", microserviceData # "guestroom_total" ?# "currency" ||| "USD");
      ("provenance_snippet", microserviceData # "guestroom_total" ?# "provenance_snippet" ||| null);
      ("notes", microserviceData # "guestroom_total" ?# "notes" ||| EmptyString) ]);
    ("meeting_room_total", VObj [
      ("status", microserviceData # "meeting_room_total" ?# "status" ||| "not_found");
      ("value", microserviceData # "meeting_room_total" ?# "amount" ?? microserviceData # "meeting_room_total" ?# "value" ?? null);
      ("currency", microserviceData # "meeting_room_total" ?# "currency" ||| "USD");
      ("provenance_snippet", microserviceData # "meeting_room_total" ?# "provenance_snippet" ||| null);
      ("notes", microserviceData # "meeting_room_total" ?# "notes" ||| EmptyString) ]);
    ("fnb_total", VObj [
      ("status", microserviceData # "fnb_total" ?# "status" ||| "not_found");
      ("value", microserviceData # "fnb_total" ?# "amount" ?? microserviceData # "fnb_total" ?# "value" ?? null);
      ("currency", microserviceData # "fnb_total" ?# "currency" ||| "USD");
      ("provenance_snippet", microserviceData # "fnb_total" ?# "provenance_snippet" ||| null);
      ("notes", microserviceData # "fnb_total" ?# "notes" ||| EmptyString) ]);
    ("extras", VObj [
      ("room_nights", microserviceData # "room_nights" ||| null);
      ("nightly_rate", microserviceData # "nightly_rate" ||| null);
      ("tax_rate_pct", microserviceData # "tax_rate_pct" ||| null);
      ("service_rate_pct", microserviceData # "service_rate_pct" ||| null);
      ("fnb_minimum", microserviceData # "fnb_minimum" ||| null);
      ("proposal_url", microserviceData # "proposal_url" ||| null);
      ("guestroom_base", microserviceData # "guestroom_base" ||| null);
      ("guestroom_taxes_fees", microserviceData # "guestroom_taxes_fees" ||| null);
      ("estimated_fnb_gross", microserviceData # "estimated_fnb_gross" ||| null);
      ("effective_value_offsets", microserviceData # "effective_value_offsets" ||| VArr []) ])
  ].

(** The first read, [microserviceData.totals], throws a [TypeError] when the
    payload is [null] or [undefined]; nothing after it can throw. *)
Definition transformMicroserviceResponse (microserviceData : value) : result value :=
  if isNullish microserviceData then Throw TypeError else
  let transformed :=
    if truthy (isOldFormat microserviceData)
    then transformOld microserviceData
    else transformNew microserviceData in
  let transformed := setProp transformed "property" (microserviceData # "property" ||| VObj []) in
  let transformed := setProp transformed "program" (microserviceData # "program" ||| VObj []) in
  let transformed := setProp transformed "concessions" (microserviceData # "concessions" ||| VArr []) in
  let transformed := setProp transformed "policies" (microserviceData # "policies" ||| VObj []) in
  let transformed := setProp transformed "sources" (microserviceData # "sources" ||| VArr []) in
  Return transformed.

(** *** The request, the extraction service and the response *)

(** A form entry is a string or a [File]. *)
Inductive FormDataEntryValue : Type :=
| FString (s : string)
| FFile (name : string) (size : Z) (type : string).

(** [FormData] keeps its entries in the order they were appended. *)
Definition FormData : Type := list (string * FormDataEntryValue).

(** [formData.get(k)]: the first entry named [k], [None] for [null]. *)
Fixpoint FormData_get (formData : FormData) (k : string) : option FormDataEntryValue :=
  match formData with
  | [] => None
  | (k', v) :: rest => if String.eqb k k' then Some v else FormData_get rest k
  end.

Definition FormData_append (formData : FormData) (k : string)
  (v : option FormDataEntryValue) : FormData :=
  match v with
  | Some e => (formData ++ [(k, e)])%list
  | None => formData
  end.

(** Truthiness of what [formData.get] returns: [null] and the empty string
    are falsy, a [File] is an object. *)
Definition present (v : option FormDataEntryValue) : bool :=
  match v with
  | None => false
  | Some (FString s) => negb (String.eqb s EmptyString)
  | Some (FFile _ _ _) => true
  end.

(** [legacyFile.type === 'application/pdf'] ([undefined] on a string). *)
Definition isPdf (v : option FormDataEntryValue) : bool :=
  match v with
  | Some (FFile _ _ type) => String.eqb type "application/pdf"
  | _ => false
  end.

(** [request.formData()] rejects when the body is not form data. *)
Record NextRequest : Type := { formData : option FormData }.

(** What [fetch] resolves to: the status, the body as text, and the body
    parsed as JSON ([None] when [response.json()] rejects). *)
Record Response : Type := {
  status : Z;
  text : string;
  json : option value
}.

Definition ok (response : Response) : bool :=
  (200 <=? status response)%Z && (status response <=? 299)%Z.

Record NextResponse : Type := {
  resp_status : Z;
  resp_body : value
}.

(** [NextResponse.json(body, { status })].  The body is kept as the object
    handed over; serialising it drops the properties that are [undefined]. *)
Definition NextResponse_json (body : value) (status : Z) : NextResponse :=
  {| resp_status := status; resp_body := body |}.

(** One call of [fetch]. *)
Record FetchCall : Type := {
  call_url : string;
  call_body : FormData
}.

Definition bind {A B : Type} (c : result A) (k : A -> result B) : result B :=
  match c with
  | Return a => k a
  | Throw e => Throw e
  end.

Notation "x <- c ;; k" := (bind c (fun x => k))
  (at level 61, c at next level, right associativity).

Section Handler.

(** [process.env.MICROSERVICE_URL] *)
Variable env_MICROSERVICE_URL : option string.

(** The network: [None] when [fetch] rejects. *)
Variable fetch : string -> FormData -> option Response.

Definition MICROSERVICE_URL : string :=
  match env_MICROSERVICE_URL with
  | Some url => if String.eqb url EmptyString then "http://localhost:8000" else url
  | None => "http://localhost:8000"
  end.

(** From [if (!response.ok)] to the final [return] of the [try] block. *)
Definition handleResponse (response : Response) : result NextResponse :=
  if negb (ok response) then
    Throw (MicroserviceError (status response) (text response))
  else
    result <- match json response with
              | Some result => Return result
              | None => Throw SyntaxError
              end ;;
    (* [result.success] on [null] is a [TypeError] *)
    if isNullish result then Throw TypeError else
    if negb (truthy (result # "success")) then
      Return (NextResponse_json (VObj [("error", result # "error")]) 500)
    else
      transformedData <- transformMicroserviceResponse (result # "data") ;;
      Return (NextResponse_json (VObj [
        ("success", VBool true);
        ("data", transformedData);
        ("sources", result # "sources");
        ("urls_found", result # "urls_found") ]) 200).

(** The [try] block: its outcome and the [fetch] calls it made. *)
Definition tryBlock (request : NextRequest) : result NextResponse * list FetchCall :=
  match formData request with
  | None => (Throw TypeError, [])
  | Some formData =>
    let microserviceFormData : FormData := [] in
    let emailContent := FormData_get formData "email_content" in
    match emailContent with
    | Some (FFile _ _ _) =>
        (* logging calls [emailContent.substring], which a [File] lacks *)
        (Throw TypeError, [])
    | _ =>
      let microserviceFormData :=
        if present emailContent
        then FormData_append microserviceFormData "email_content" emailContent
        else microserviceFormData in
      let emailFile := FormData_get formData "email_file" in
      let microserviceFormData :=
        if present emailFile
        then FormData_append microserviceFormData "email_file" emailFile
        else microserviceFormData in
      let proposalFile := FormData_get formData "proposal_file" in
      let microserviceFormData :=
        if present proposalFile
        then FormData_append microserviceFormData "proposal_file" proposalFile
        else microserviceFormData in
      let proposalUrl := FormData_get formData "proposal_url" in
      let microserviceFormData :=
        if present proposalUrl
        then FormData_append microserviceFormData "proposal_url" proposalUrl
        else microserviceFormData in
      let legacyFile := FormData_get formData "file" in
      let microserviceFormData :=
        if present legacyFile && negb (present proposalFile) && negb (present emailFile)
        then
          if isPdf legacyFile
          then FormData_append microserviceFormData "proposal_file" legacyFile
          else FormData_append microserviceFormData "email_file" legacyFile
        else microserviceFormData in
      if negb (present emailContent) && negb (present emailFile)
         && negb (present proposalFile) && negb (present proposalUrl)
         && negb (present legacyFile)
      then
        (Return (NextResponse_json
                   (VObj [("error", VStr "No content provided for extraction")]) 400),
         [])
      else
        let url := MICROSERVICE_URL ++ "/extract" in
        let call := {| call_url := url; call_body := microserviceFormData |} in
        match fetch url microserviceFormData with
        | None => (Throw NetworkError, [call])
        | Some response => (handleResponse response, [call])
        end
    end
  end.

(** [POST]: the response sent to the caller, and the [fetch] calls made. *)
Definition POST (request : NextRequest) : NextResponse * list FetchCall :=
  match tryBlock request with
  | (Return response, calls) => (response, calls)
  | (Throw _, calls) =>
      (NextResponse_json (VObj [("error", VStr "Failed to process content")]) 500,
       calls)
  end.

End Handler.

(** *** The fields of the transformed record *)

Definition moneyKeys : list string :=
  ["total_quote"; "guestroom_total"; "meeting_room_total"; "fnb_total"].

Definition numericExtrasKeys : list string :=
  ["room_nights"; "nightly_rate"; "tax_rate_pct"; "service_rate_pct";
   "fnb_minimum"; "guestroom_base"; "guestroom_taxes_fees"; "estimated_fnb_gross"].

Definition extrasKeys : list string :=
  "proposal_url" :: "effective_value_offsets" :: numericExtrasKeys.

Definition commonKeys : list string :=
  ["property"; "program"; "concessions"; "policies"; "sources"].

(** The invariant of the data model on one money field: [not_found] goes
    with no value, any other status with a value. *)
Definition consistent (field : value) : Prop :=
  (field # "status" = VStr "not_found" -> field # "value" = null) /\
  (field # "status" <> VStr "not_found" -> field # "value" <> null).

(** What the upstream field says: its status is missing, falsy or
    ['not_found']; it gives an [amount] or a [value]. *)
Definition isNotFound (v : value) : bool :=
  match v with
  | VStr s => String.eqb s "not_found"
  | _ => false
  end.

Definition upstreamNotFound (upstream : value) : bool :=
  negb (truthy (upstream ?# "status")) || isNotFound (upstream ?# "status").

Definition upstreamHasValue (upstream : value) : bool :=
  negb (isNullish (upstream ?# "amount")) || negb (isNullish (upstream ?# "value")).

(** The defaults of a transformed money field [out], read against the
    upstream field it was made from. *)
Definition defaultsFilled (upstream out : value) : Prop :=
  (upstream ?# "currency" = undefined -> out # "currency" = VStr "USD") /\
  (isNullish upstream = true ->
     out # "status" = VStr "not_found" /\ out # "value" = null /\
     out # "currency" = VStr "USD" /\ out # "notes" = VStr EmptyString).

(** The two bodies the handler sends. *)
Definition errorBody (error : value) : value := VObj [("error", error)].

Definition successBody (data sources urls_found : value) : value :=
  VObj [("success", VBool true); ("data", data);
        ("sources", sources); ("urls_found", urls_found)].

(** The request passes the handler's check for content, and its
    [email_content], when there is one, is text. *)
Definition anyContent (form : FormData) : bool :=
  present (FormData_get form "email_content")
  || present (FormData_get form "email_file")
  || present (FormData_get form "proposal_file")
  || present (FormData_get form "proposal_url")
  || present (FormData_get form "file").

Definition textOrAbsent (v : option FormDataEntryValue) : bool :=
  match v with
  | Some (FFile _ _ _) => false
  | _ => true
  end.

(** The answers of the extraction service on which the handler throws: no
    answer, a status outside 200 to 299, a body that is not JSON or is
    [null], or a reported success that comes without data. *)
Definition upstreamThrows (outcome : option Response) : Prop :=
  match outcome with
  | None => True
  | Some response =>
      ok response = false \/
      match json response with
      | None => True
      | Some result =>
          isNullish result = true \/
          (truthy (result # "success") = true /\ isNullish (result # "data") = true)
      end
  end.

(** The names under which content is handed to the extraction service. *)
Definition forwardedKeys : list string :=
  ["email_content"; "email_file"; "proposal_file"; "proposal_url"].

End Route.

(* ================================================================== *)
(** ** [app/page.tsx] *)
(* ================================================================== *)

Module Page.
Import JS.
Local Open Scope float_scope.

Inductive Status : Type := explicit | derived | conditional | not_found.

(** The shape every money field of [QuoteData] has. *)
Record MoneyField : Type := {
  status : Status;
  value : option float;
  currency : string;
  provenance_snippet : option string;
  notes : string
}.

Record Extras : Type := {
  room_nights : option float;
  nightly_rate : option float;
  tax_rate_pct : option float;
  service_rate_pct : option float;
  fnb_minimum : option float;
  proposal_url : option string;
  guestroom_base : option float;
  guestroom_taxes_fees : option float;
  estimated_fnb_gross : option float;
  effective_value_offsets : list string
}.

(** [interface QuoteData].  The helpers guard every read of [extras]
    ([quoteData.extras?.], [!quoteData?.extras]), so it may be missing. *)
Record QuoteData : Type := {
  total_quote : MoneyField;
  guestroom_total : MoneyField;
  meeting_room_total : MoneyField;
  fnb_total : MoneyField;
  extras : option Extras;
  property : option JS.value;
  program : option JS.value;
  concessions : option (list string);
  policies : option JS.value;
  sources : option (list string)
}.

(** [a || b] on [number | null] operands, and [a || 0]. *)
Definition orNum (a b : option float) : option float :=
  match a with
  | Some x => if truthyNum x then Some x else b
  | None => b
  end.

Definition orZero (a : option float) : float :=
  match a with
  | Some x => if truthyNum x then x else 0
  | None => 0
  end.

(** [a || b] on [string | null] and [string] operands. *)
Definition orStr (a : option string) (b : string) : string :=
  match a with
  | Some s => if String.eqb s EmptyString then b else s
  | None => b
  end.

(** [quoteData.extras?.field] *)
Definition extrasField (q : QuoteData) (field : Extras -> option float) : option float :=
  match extras q with
  | Some e => field e
  | None => None
  end.

Definition getTotalQuoteSubtitle (quoteData : option QuoteData) : option string :=
  match quoteData with
  | None => None
  | Some q =>
      match status (total_quote q) with
      | not_found => Some "Hotel did not provide an all-in total."%string
      | _ => None
      end
  end.

Definition getCalculatedTotalQuote (quoteData : option QuoteData) : option float :=
  match quoteData with
  | None => None
  | Some q =>
      let guestroom := orZero (value (guestroom_total q)) in
      let meeting := orZero (value (meeting_room_total q)) in
      let fnb := orZero (orNum (extrasField q estimated_fnb_gross) (value (fnb_total q))) in
      Some (guestroom + meeting + fnb)
  end.

(** The three amounts [getFnbBreakdown] computes inside its template. *)
Definition serviceChargeShown (e : Extras) : float :=
  orZero (fnb_minimum e) * orZero (service_rate_pct e) / 100.

Definition taxOnServiceShown (e : Extras) : float :=
  (orZero (fnb_minimum e) * orZero (service_rate_pct e) / 100) * orZero (tax_rate_pct e) / 100.

Definition taxOnFnbShown (e : Extras) : float :=
  orZero (fnb_minimum e) * orZero (tax_rate_pct e) / 100.

Definition getMeetingRoomConditions (quoteData : option QuoteData) : list string :=
  match quoteData with
  | None => []
  | Some q =>
      match status (meeting_room_total q) with
      | conditional =>
          let condition :=
            orStr (Some (orStr (provenance_snippet (meeting_room_total q))
                               (notes (meeting_room_total q))))
                  "Conditional on F&B minimum" in
          [condition]
      | _ => []
      end
  end.

Section Rendering.

(** [Intl.NumberFormat('en-US', { style: 'currency', currency: 'USD' }).format]
    and the conversion of a number inside a template literal. *)
Variable formatUSD : float -> string.
Variable numberToString : float -> string.

Local Open Scope string_scope.

(** The em dash, U+2014, in UTF-8. *)
Definition emDash : string :=
  String (ascii_of_nat 226) (String (ascii_of_nat 128) (String (ascii_of_nat 148) EmptyString)).

(** U+00D7, the multiplication sign, in UTF-8. *)
Definition timesSign : string :=
  String (ascii_of_nat 195) (String (ascii_of_nat 151) EmptyString).

Definition money (amount : option float) : string :=
  match amount with
  | None => emDash
  | Some a => formatUSD a
  end.

Definition getGuestroomBreakdown (quoteData : option QuoteData) : option string :=
  match quoteData with
  | None => None
  | Some q =>
      match extras q with
      | None => None
      | Some e =>
          match room_nights e, nightly_rate e with
          | Some rn, Some nr =>
              if truthyNum rn && truthyNum nr then
                let base := (rn * nr)%float in
                let taxes := orZero (guestroom_taxes_fees e) in
                Some (numberToString rn ++ " room-nights " ++ timesSign ++ " $"
                      ++ numberToString nr ++ " = $" ++ money (Some base)
                      ++ "; +" ++ money (Some taxes) ++ " taxes & fees.")
              else None
          | _, _ => None
          end
      end
  end.

Definition getFnbBreakdown (quoteData : option QuoteData) : option string :=
  match quoteData with
  | None => None
  | Some q =>
      match extras q with
      | None => None
      | Some e =>
          match estimated_fnb_gross e with
          | Some gross =>
              if truthyNum gross then
                Some ("F&B Minimum: " ++ money (Some (orZero (fnb_minimum e)))
                      ++ "; Service Charge (" ++ numberToString (orZero (service_rate_pct e))
                      ++ "%): " ++ money (Some (serviceChargeShown e))
                      ++ "; Tax on Service Charge (" ++ numberToString (orZero (tax_rate_pct e))
                      ++ "%): " ++ money (Some (taxOnServiceShown e))
                      ++ "; Tax on F&B (" ++ numberToString (orZero (tax_rate_pct e))
                      ++ "%): " ++ money (Some (taxOnFnbShown e))
                      ++ "; Total: " ++ money (Some gross))
              else None
          | None => None
          end
      end
  end.

(** The properties handed to one [TotalCard]. *)
Record TotalCardProps : Type := {
  title : string;
  card_value : option float;
  card_status : Status;
  subtitle : option string;
  breakdown : option string;
  provenance : option string;
  conditions : option (list string)
}.

(** The four cards [Home] renders once [quoteData] is set. *)
Definition totalQuoteCard (q : QuoteData) : TotalCardProps :=
  {| title := "Total Quote";
     card_value := getCalculatedTotalQuote (Some q);
     card_status := status (total_quote q);
     subtitle := getTotalQuoteSubtitle (Some q);
     breakdown := None;
     provenance := provenance_snippet (total_quote q);
     conditions := None |}.

Definition guestroomCard (q : QuoteData) : TotalCardProps :=
  {| title := "Guestroom Total";
     card_value := value (guestroom_total q);
     card_status := status (guestroom_total q);
     subtitle := None;
     breakdown := getGuestroomBreakdown (Some q);
     provenance := provenance_snippet (guestroom_total q);
     conditions := None |}.

Definition meetingRoomCard (q : QuoteData) : TotalCardProps :=
  {| title := "Meeting Room Total";
     card_value := value (meeting_room_total q);
     card_status := status (meeting_room_total q);
     subtitle := None;
     breakdown := None;
     provenance := provenance_snippet (meeting_room_total q);
     conditions := Some (getMeetingRoomConditions (Some q)) |}.

Definition fnbCard (q : QuoteData) : TotalCardProps :=
  {| title := "Food & Beverage Total";
     card_value := orNum (extrasField q estimated_fnb_gross) (value (fnb_total q));
     card_status := status (fnb_total q);
     subtitle := None;
     breakdown := getFnbBreakdown (Some q);
     provenance := provenance_snippet (fnb_total q);
     conditions := None |}.

End Rendering.

(** *** [TotalCard] *)

(** The string a status is at run time. *)
Definition statusString (s : Status) : string :=
  match s with
  | explicit => "explicit"
  | derived => "derived"
  | conditional => "conditional"
  | not_found => "not_found"
  end.

Definition getStatusColor (status : string) : string :=
  if String.eqb status "explicit" then "bg-emerald-50 border-emerald-200 text-emerald-700"
  else if String.eqb status "derived" then "bg-blue-50 border-blue-200 text-blue-700"
  else if String.eqb status "conditional" then "bg-amber-50 border-amber-200 text-amber-700"
  else if String.eqb status "not_found" then "bg-gray-50 border-gray-200 text-gray-600"
  else "bg-gray-50 border-gray-200 text-gray-600".

Definition getStatusText (status : string) : string :=
  if String.eqb status "explicit" then "Explicit"
  else if String.eqb status "derived" then "Calculated"
  else if String.eqb status "conditional" then "Conditional"
  else if String.eqb status "not_found" then "Not Found"
  else "Unknown".

Section Display.

Variable formatUSD : float -> string.
Variable numberToString : float -> string.

Local Open Scope string_scope.

(** [getDisplayValue] of a card: only [null] gives the dash. *)
Definition getDisplayValue (card : TotalCardProps) : string :=
  match card_value card with
  | Some value => money formatUSD (Some value)
  | None =>
      match card_status card with
      | not_found => emDash
      | _ => emDash
      end
  end.

(** *** [downloadCSV] *)

Definition doubleQuote : string := String (ascii_of_nat 34) EmptyString.
Definition lineFeed : string := String (ascii_of_nat 10) EmptyString.

(** [value || ''] inside the template of a cell. *)
Definition valueCell (value : option float) : string :=
  match value with
  | Some x => if truthyNum x then numberToString x else EmptyString
  | None => EmptyString
  end.

Definition csvRow (label : string) (field : MoneyField) : list string :=
  [label; valueCell (value field); statusString (status field); notes field].

Definition csvRows (quoteData : QuoteData) : list (list string) :=
  [ ["Field"; "Value"; "Status"; "Notes"];
    csvRow "Total Quote" (total_quote quoteData);
    csvRow "Guestroom Total" (guestroom_total quoteData);
    csvRow "Meeting Room Total" (meeting_room_total quoteData);
    csvRow "F&B Total" (fnb_total quoteData) ].

(** The text [downloadCSV] puts in the file. *)
Definition csvContent (quoteData : QuoteData) : string :=
  String.concat lineFeed
    (map (fun row =>
            String.concat "," (map (fun cell => doubleQuote ++ cell ++ doubleQuote) row))
         (csvRows quoteData)).

End Display.

(** *** [Home]: the form and [handleSubmit] *)

Record File : Type := {
  file_name : string;
  file_size : Z;
  file_type : string
}.

Definition fileEntry (f : File) : Route.FormDataEntryValue :=
  Route.FFile (file_name f) (file_size f) (file_type f).

(** The four inputs the form holds in its state. *)
Record Inputs : Type := {
  emailContent : string;
  emailFile : option File;
  proposalFile : option File;
  proposalUrl : string
}.

(** The state [handleSubmit] leaves behind. *)
Record HomeState : Type := {
  isLoading : bool;
  quoteData : JS.value;
  error : JS.value;
  urls : JS.value;
  sources_found : JS.value
}.

(** [disabled] of the submit button. *)
Definition submitDisabled (loading : bool) (inputs : Inputs) : bool :=
  loading
  || (String.eqb (emailContent inputs) EmptyString
      && match emailFile inputs with Some _ => false | None => true end
      && match proposalFile inputs with Some _ => false | None => true end
      && String.eqb (proposalUrl inputs) EmptyString).

(** The [FormData] that [handleSubmit] fills. *)
Definition buildFormData (inputs : Inputs) : Route.FormData :=
  let formData : Route.FormData := [] in
  let formData :=
    if negb (trimsToEmpty (emailContent inputs))
    then Route.FormData_append formData "email_content"
           (Some (Route.FString (emailContent inputs)))
    else formData in
  let formData :=
    match emailFile inputs with
    | Some f => Route.FormData_append formData "email_file" (Some (fileEntry f))
    | None => formData
    end in
  let formData :=
    match proposalFile inputs with
    | Some f => Route.FormData_append formData "proposal_file" (Some (fileEntry f))
    | None => formData
    end in
  let formData :=
    if negb (trimsToEmpty (proposalUrl inputs))
    then Route.FormData_append formData "proposal_url"
           (Some (Route.FString (proposalUrl inputs)))
    else formData in
  formData.

(** How [await fetch('/api/process', ...)] followed by [await
    response.json()] ends: with the parsed body, or with a rejection that
    is or is not an [Error]. *)
Inductive ApiOutcome : Type :=
| Resolved (result : JS.value)
| RejectedError (message : string)
| Rejected.

Section Submit.

(** The API behind [/api/process], and the message of the [TypeError] that
    reading a property of [null] raises. *)
Variable api : Route.FormData -> ApiOutcome.
Variable typeErrorMessage : string.

Definition failed (message : JS.value) : HomeState :=
  {| isLoading := false;
     quoteData := VNull;
     error := message;
     urls := VArr [];
     sources_found := VArr [] |}.

Definition handleSubmit (inputs : Inputs) : HomeState :=
  match api (buildFormData inputs) with
  | Resolved result =>
      if isNullish result then failed (VStr typeErrorMessage)
      else if truthy (prop result "success") then
        {| isLoading := false;
           quoteData := prop result "data";
           error := VNull;
           urls := jsOr (prop result "urls_found") (VArr []);
           sources_found := jsOr (prop result "sources") (VArr []) |}
      else failed (jsOr (prop result "error") (VStr "Failed to process request"))
  | RejectedError message => failed (VStr message)
  | Rejected => failed (VStr "An error occurred")
  end.

End Submit.

(** The multipart encoding of a form rewrites every line break of a text
    value as CR LF; a file arrives with its size and type (file names are
    taken to hold no quotes or line breaks, which the encoding escapes). *)
Fixpoint crlf (s : string) : string :=
  match s with
  | EmptyString => EmptyString
  | String a rest =>
      if Nat.eqb (nat_of_ascii a) 10 then
        String (ascii_of_nat 13) (String (ascii_of_nat 10) (crlf rest))
      else if Nat.eqb (nat_of_ascii a) 13 then
        match rest with
        | EmptyString => String (ascii_of_nat 13) (String (ascii_of_nat 10) EmptyString)
        | String b rest2 =>
            if Nat.eqb (nat_of_ascii b) 10
            then String (ascii_of_nat 13) (String (ascii_of_nat 10) (crlf rest2))
            else String (ascii_of_nat 13) (String (ascii_of_nat 10) (crlf rest))
        end
      else String a (crlf rest)
  end.

Definition multipart (form : Route.FormData) : Route.FormData :=
  map (fun entry : string * Route.FormDataEntryValue =>
         match entry with
         | (k, Route.FString s) => (k, Route.FString (crlf s))
         | (k, file) => (k, file)
         end) form.

(** [/api/process] served by the route: the form reaches [POST] as the
    request's form data and the body comes back as JSON. *)
Definition viaRoute (env : option string)
  (fetch : string -> Route.FormData -> option Route.Response)
  : Route.FormData -> ApiOutcome :=
  fun form =>
    Resolved (jsonRoundTrip
                (Route.resp_body
                   (fst (Route.POST env fetch
                           {| Route.formData := Some (multipart form) |})))).

End Page.

(* ================================================================== *)
(** ** Merge/Normalize, as the specification words it *)
(* ================================================================== *)

Module Normalize.
Local Open Scope float_scope.

Section Merge.

(** The names of the fields of a record, and what a found field holds. *)
Variables (Field Val : Type).

(** Modelled from the spec: a field of a partial QuoteRecord, which is
    either [not_found] or carries a value.  The extraction service that
    produces and merges the records is not among the sources. *)
Inductive FieldValue : Type :=
| NotFound
| Found (v : Val).

(** Modelled from the spec: a partial QuoteRecord gives every field of the
    fixed schema a [FieldValue]. *)
Definition PartialRecord : Type := Field -> FieldValue.

(** Modelled from the spec: the precedence rule of section 4.1 on one
    field, each side being absent when its input was not supplied.  The
    merge step of the extraction service is not among the sources. *)
Definition mergeField (email proposal : option FieldValue) : FieldValue :=
  match proposal with
  | Some (Found v) => Found v
  | _ =>
      match email with
      | Some e => e
      | None => NotFound
      end
  end.

(** Modelled from the spec: the merge of section 4.1, the precedence rule
    applied to every field of up to two partial records. *)
Definition merge (email proposal : option PartialRecord) : PartialRecord :=
  fun f =>
    mergeField (option_map (fun r => r f) email)
               (option_map (fun r => r f) proposal).

End Merge.

Arguments NotFound {Val}.
Arguments Found {Val} v.
Arguments mergeField {Val} email proposal.
Arguments merge {Field Val} email proposal f.

(** Modelled from the spec: the four quantities the F&B gross estimation of
    section 4.1 names. *)
Record FnbEstimate : Type := {
  service_charge : float;
  tax_on_service : float;
  tax_on_fnb : float;
  estimated_fnb_gross : float
}.

(** Modelled from the spec: the F&B gross estimation of section 4.1, in the
    order the four lines are written there.  The estimate is made by the
    extraction service, which is not among the sources; [page.tsx] only
    shows it. *)
Definition estimateFnbGross (fnb_minimum service_rate_pct tax_rate_pct : float)
  : FnbEstimate :=
  let service_charge := fnb_minimum * service_rate_pct / 100 in
  let tax_on_service := service_charge * tax_rate_pct / 100 in
  let tax_on_fnb := fnb_minimum * tax_rate_pct / 100 in
  {| service_charge := service_charge;
     tax_on_service := tax_on_service;
     tax_on_fnb := tax_on_fnb;
     estimated_fnb_gross := fnb_minimum + service_charge + tax_on_service + tax_on_fnb |}.

End Normalize.

(* ================================================================== *)
(** ** Sample inputs *)
(* ================================================================== *)

Module Samples.
Import JS.

(** A money field the extraction did not find, and one it read off the
    document. *)
Definition notFoundField : Page.MoneyField :=
  {| Page.status := Page.not_found;
     Page.value := None;
     Page.currency := "USD";
     Page.provenance_snippet := None;
     Page.notes := EmptyString |}.

Definition explicitField (amount : float) : Page.MoneyField :=
  {| Page.status := Page.explicit;
     Page.value := Some amount;
     Page.currency := "USD";
     Page.provenance_snippet := None;
     Page.notes := EmptyString |}.

Definition conditionalField (snippet : option string) (notes : string) : Page.MoneyField :=
  {| Page.status := Page.conditional;
     Page.value := Some 0%float;
     Page.currency := "USD";
     Page.provenance_snippet := snippet;
     Page.notes := notes |}.

(** The extras of the specification's worked example. *)
Definition sampleExtras (gross : option float) : Page.Extras :=
  {| Page.room_nights := None;
     Page.nightly_rate := None;
     Page.tax_rate_pct := Some 8.45%float;
     Page.service_rate_pct := Some 24%float;
     Page.fnb_minimum := Some 10000%float;
     Page.proposal_url := None;
     Page.guestroom_base := None;
     Page.guestroom_taxes_fees := None;
     Page.estimated_fnb_gross := gross;
     Page.effective_value_offsets := [] |}.

(** No all-in total stated; guest rooms 50000, meeting rooms 5000, estimated
    F&B gross 13447.8. *)
Definition sampleQuote : Page.QuoteData :=
  {| Page.total_quote := notFoundField;
     Page.guestroom_total := explicitField 50000;
     Page.meeting_room_total := explicitField 5000;
     Page.fnb_total := notFoundField;
     Page.extras := Some (sampleExtras (Some 13447.8%float));
     Page.property := None;
     Page.program := None;
     Page.concessions := None;
     Page.policies := None;
     Page.sources := None |}.

(** The same quote with a waiver clause on the meeting rooms. *)
Definition waiverQuote : Page.QuoteData :=
  {| Page.total_quote := notFoundField;
     Page.guestroom_total := explicitField 50000;
     Page.meeting_room_total :=
       conditionalField (Some "Meeting room rental waived with $10,000 F&B minimum") EmptyString;
     Page.fnb_total := notFoundField;
     Page.extras := Some (sampleExtras (Some 13447.8%float));
     Page.property := None;
     Page.program := None;
     Page.concessions := None;
     Page.policies := None;
     Page.sources := None |}.

(** Upstream payloads.  A total with a status and no amount; the same quote
    in the nested and in the flat format, with a zero among the extras. *)
Definition statusOnlyPayload : value :=
  VObj [("total_quote", VObj [("status", VStr "explicit")])].

Definition guestroomUpstream : value :=
  VObj [("status", VStr "explicit"); ("amount", VNum 50000)].

Definition meetingUpstream : value :=
  VObj [("status", VStr "conditional"); ("value", VNum 0);
        ("currency", VStr "EUR"); ("notes", VStr "Waived with F&B minimum")].

Definition nestedPayload : value :=
  VObj [
    ("totals", VObj [("guestroom_total", guestroomUpstream);
                     ("meeting_room_total", meetingUpstream)]);
    ("extras", VObj [("room_nights", VNum 240); ("nightly_rate", VNum 0);
                     ("proposal_url", VStr "https://example.com/proposal")]);
    ("concessions", VArr [VStr "Waived meeting room rental"]);
    ("sources", VArr [VStr "proposal"]) ].

Definition flatPayload : value :=
  VObj [
    ("guestroom_total", guestroomUpstream);
    ("meeting_room_total", meetingUpstream);
    ("room_nights", VNum 240); ("nightly_rate", VNum 0);
    ("proposal_url", VStr "https://example.com/proposal");
    ("concessions", VArr [VStr "Waived meeting room rental"]);
    ("sources", VArr [VStr "proposal"]) ].

(** Requests and extraction services.  A form with nothing in it, a form
    with an email pasted in; a service that cannot be reached, and one that
    reports a failure without saying why. *)
Definition emptyRequest : Route.NextRequest :=
  {| Route.formData := Some [] |}.

Definition emailRequest : Route.NextRequest :=
  {| Route.formData := Some [("email_content", Route.FString "Rate is $192 per night")] |}.

Definition unreachable : string -> Route.FormData -> option Route.Response :=
  fun _ _ => None.

Definition silentFailure : string -> Route.FormData -> option Route.Response :=
  fun _ _ =>
    Some {| Route.status := 200;
            Route.text := "{'success': false}";
            Route.json := Some (VObj [("success", VBool false)]) |}.

(** The waiver quote with the meeting-room amount missing instead of zero. *)
Definition waiverQuoteNoAmount : Page.QuoteData :=
  {| Page.total_quote := notFoundField;
     Page.guestroom_total := explicitField 50000;
     Page.meeting_room_total :=
       {| Page.status := Page.conditional;
          Page.value := None;
          Page.currency := "USD";
          Page.provenance_snippet :=
            Some "Meeting room rental waived with $10,000 F&B minimum";
          Page.notes := EmptyString |};
     Page.fnb_total := notFoundField;
     Page.extras := Some (sampleExtras (Some 13447.8%float));
     Page.property := None;
     Page.program := None;
     Page.concessions := None;
     Page.policies := None;
     Page.sources := None |}.

(** A record in which nothing was found. *)
Definition emptyQuote : Page.QuoteData :=
  {| Page.total_quote := notFoundField;
     Page.guestroom_total := notFoundField;
     Page.meeting_room_total := notFoundField;
     Page.fnb_total := notFoundField;
     Page.extras := None;
     Page.property := None;
     Page.program := None;
     Page.concessions := None;
     Page.policies := None;
     Page.sources := None |}.

(** What a visitor may have typed: only blanks, or an email. *)
Definition blankInputs : Page.Inputs :=
  {| Page.emailContent := "   ";
     Page.emailFile := None;
     Page.proposalFile := None;
     Page.proposalUrl := EmptyString |}.

Definition emailInputs : Page.Inputs :=
  {| Page.emailContent := "Rate is $192 per night";
     Page.emailFile := None;
     Page.proposalFile := None;
     Page.proposalUrl := EmptyString |}.

(** A request in the legacy shape, one PDF under [file] beside a URL; and
    services that give one answer to whatever they are sent. *)
Definition legacyPdf : Route.FormDataEntryValue :=
  Route.FFile "proposal.pdf" 52000 "application/pdf".

Definition legacyRequest : Route.NextRequest :=
  {| Route.formData :=
       Some [("file", legacyPdf);
             ("proposal_url", Route.FString "https://example.com/proposal")] |}.

Definition answering (response : Route.Response)
  : string -> Route.FormData -> option Route.Response :=
  fun _ _ => Some response.

Definition badGateway : Route.Response :=
  {| Route.status := 502;
     Route.text := "upstream timed out";
     Route.json := None |}.

Definition reportedFailure : Route.Response :=
  {| Route.status := 200;
     Route.text := "{'success': false, 'error': 'No text could be extracted'}";
     Route.json := Some (VObj [("success", VBool false);
                               ("error", VStr "No text could be extracted")]) |}.

Definition extracted : Route.Response :=
  {| Route.status := 200;
     Route.text := "{'success': true, ...}";
     Route.json := Some (VObj [("success", VBool true);
                               ("data", flatPayload);
                               ("sources", VArr [VStr "proposal"]);
                               ("urls_found", VArr [])]) |}.

(** A payload that nests its totals and comes without extras. *)
Definition totalsOnlyPayload : value :=
  VObj [("totals", VObj [("guestroom_total", guestroomUpstream)])].

(** A total stated as a zero amount beside an older [value]. *)
Definition zeroAmountPayload : value :=
  VObj [("total_quote",
         VObj [("status", VStr "explicit"); ("amount", VNum 0); ("value", VNum 125)])].

End Samples.

(* ================================================================== *)
(** ** Properties of the result page *)
(* ================================================================== *)

Section PageProperties.
Import JS Page Samples.

Lemma orZero_truthy (x : float) : truthyNum x = true -> orZero (Some x) = x.
Proof. intros H. unfold orZero. now rewrite H. Qed.

Lemma orStr_present (s b : string) : s <> EmptyString -> orStr (Some s) b = s.
Proof.
  intros H. unfold orStr.
  destruct (String.eqb s EmptyString) eqn:E; [|reflexivity].
  apply String.eqb_eq in E. contradiction.
Qed.

Lemma orStr_empty (b : string) : orStr (Some EmptyString) b = b.
Proof. reflexivity. Qed.

Lemma orStr_absent (b : string) : orStr None b = b.
Proof. reflexivity. Qed.

(** C1, as the claim words it, fails: for the sample quote, whose all-in
    total is not stated, the Total Quote card carries the computed sum
    68447.8 but under the record's own status [not_found], not [derived]. *)
Lemma total_quote_status_not_derived :
  status (total_quote sampleQuote) <> explicit /\
  card_value (totalQuoteCard sampleQuote) = Some 68447.8%float /\
  card_status (totalQuoteCard sampleQuote) = not_found /\
  card_status (totalQuoteCard sampleQuote) <> derived.
Proof.
  repeat split; try reflexivity; discriminate.
Qed.

(** C1, amended: for every record, whatever the status of its total_quote,
    the total shown is guestroom_total + meeting_room_total + F&B, where F&B
    is estimated_fnb_gross when that is present and not zero and fnb_total
    otherwise, an absent or zero addend counting as 0; the status shown with
    it is the record's own total_quote status, unchanged; and for 50000,
    5000 and 13447.8 the total is 68447.8. *)
Theorem total_quote_card_sum (q : QuoteData) :
  (forall gross,
      extrasField q estimated_fnb_gross = Some gross -> truthyNum gross = true ->
      card_value (totalQuoteCard q)
      = Some (orZero (value (guestroom_total q))
              + orZero (value (meeting_room_total q)) + gross)%float) /\
  ((forall gross,
       extrasField q estimated_fnb_gross = Some gross -> truthyNum gross = false) ->
      card_value (totalQuoteCard q)
      = Some (orZero (value (guestroom_total q))
              + orZero (value (meeting_room_total q))
              + orZero (value (fnb_total q)))%float) /\
  card_status (totalQuoteCard q) = status (total_quote q) /\
  (value (guestroom_total q) = Some 50000%float ->
   value (meeting_room_total q) = Some 5000%float ->
   extrasField q estimated_fnb_gross = Some 13447.8%float ->
   card_value (totalQuoteCard q) = Some 68447.8%float).
Proof.
  unfold totalQuoteCard, getCalculatedTotalQuote; cbn [card_value card_status].
  repeat split.
  - intros gross Hg Ht. rewrite Hg. unfold orNum. rewrite Ht.
    now rewrite (orZero_truthy gross Ht).
  - intros Hfalsy.
    destruct (extrasField q estimated_fnb_gross) as [gross|]; [|reflexivity].
    unfold orNum. now rewrite (Hfalsy gross eq_refl).
  - intros Hg Hm He. rewrite Hg, Hm, He. reflexivity.
Qed.

Lemma total_quote_card_sum_witness :
  card_value (totalQuoteCard sampleQuote) = Some 68447.8%float.
Proof.
  apply (total_quote_card_sum sampleQuote); reflexivity.
Defined.

(** C8: when meeting_room_total is [conditional], the conditions list of the
    meeting-room card holds exactly one clause: provenance_snippet when it
    is present (not null and not empty), otherwise notes when not empty,
    otherwise the default text; for any other status the list is empty. *)
Theorem meeting_room_conditions (q : QuoteData) :
  conditions (meetingRoomCard q) = Some (getMeetingRoomConditions (Some q)) /\
  (status (meeting_room_total q) = conditional ->
     (forall p, provenance_snippet (meeting_room_total q) = Some p ->
                p <> EmptyString ->
                getMeetingRoomConditions (Some q) = [p]) /\
     (provenance_snippet (meeting_room_total q) = None \/
      provenance_snippet (meeting_room_total q) = Some EmptyString ->
      notes (meeting_room_total q) <> EmptyString ->
      getMeetingRoomConditions (Some q) = [notes (meeting_room_total q)]) /\
     (provenance_snippet (meeting_room_total q) = None \/
      provenance_snippet (meeting_room_total q) = Some EmptyString ->
      notes (meeting_room_total q) = EmptyString ->
      getMeetingRoomConditions (Some q) = ["Conditional on F&B minimum"])) /\
  (status (meeting_room_total q) <> conditional ->
     getMeetingRoomConditions (Some q) = []).
Proof.
  split; [reflexivity|].
  unfold getMeetingRoomConditions.
  destruct (meeting_room_total q) as [st v c p n]; cbn [status provenance_snippet notes].
  split.
  - intros ->. repeat split.
    + intros s -> Hs.
      rewrite (orStr_present s n Hs). now rewrite (orStr_present s _ Hs).
    + intros [-> | ->] Hn; [rewrite orStr_absent | rewrite orStr_empty];
        now rewrite (orStr_present n _ Hn).
    + intros [-> | ->] ->; reflexivity.
  - intros Hst. destruct st; try reflexivity. now elim Hst.
Qed.

Lemma meeting_room_conditions_witness :
  getMeetingRoomConditions (Some waiverQuote)
  = ["Meeting room rental waived with $10,000 F&B minimum"].
Proof.
  apply (meeting_room_conditions waiverQuote); [reflexivity|reflexivity|discriminate].
Defined.

End PageProperties.

(* ================================================================== *)
(** ** Properties of Merge/Normalize *)
(* ================================================================== *)

Section NormalizeProperties.
Import JS Normalize.
Local Open Scope float_scope.

(** [getFnbBreakdown] never estimates: without a gross figure in the record
    it shows nothing. *)
Lemma getFnbBreakdown_needs_gross formatUSD numberToString (q : Page.QuoteData) :
  Page.extrasField q Page.estimated_fnb_gross = None ->
  Page.getFnbBreakdown formatUSD numberToString (Some q) = None.
Proof.
  unfold Page.extrasField, Page.getFnbBreakdown.
  destruct (Page.extras q) as [e|]; [|reflexivity].
  now intros ->.
Qed.

(** C2: the estimated F&B gross is fnb_minimum + service_charge +
    tax_on_service + tax_on_fnb with the percentages taken as pct/100, in
    that order; for 10000, 24 and 8.45 the components are 2400, 202.8 and
    845 and the estimate 13447.8, exactly, in binary64 arithmetic; and the
    three amounts [getFnbBreakdown] displays are these components. *)
Theorem fnb_gross_estimate :
  (forall m s t,
      estimated_fnb_gross (estimateFnbGross m s t)
      = m + (m * s / 100) + ((m * s / 100) * t / 100) + (m * t / 100)) /\
  estimateFnbGross 10000 24 8.45
  = {| service_charge := 2400;
       tax_on_service := 202.8;
       tax_on_fnb := 845;
       estimated_fnb_gross := 13447.8 |} /\
  (forall e m s t,
      Page.fnb_minimum e = Some m -> truthyNum m = true ->
      Page.service_rate_pct e = Some s -> truthyNum s = true ->
      Page.tax_rate_pct e = Some t -> truthyNum t = true ->
      Page.serviceChargeShown e = service_charge (estimateFnbGross m s t) /\
      Page.taxOnServiceShown e = tax_on_service (estimateFnbGross m s t) /\
      Page.taxOnFnbShown e = tax_on_fnb (estimateFnbGross m s t)).
Proof.
  split; [reflexivity|]. split; [reflexivity|].
  intros e m s t Hm Tm Hs Ts Ht Tt.
  unfold Page.serviceChargeShown, Page.taxOnServiceShown, Page.taxOnFnbShown.
  rewrite Hm, Hs, Ht. unfold Page.orZero. rewrite Tm, Ts, Tt.
  repeat split.
Qed.

Lemma fnb_gross_estimate_witness :
  Page.serviceChargeShown (Samples.sampleExtras None) = 2400 /\
  Page.taxOnServiceShown (Samples.sampleExtras None) = 202.8 /\
  Page.taxOnFnbShown (Samples.sampleExtras None) = 845.
Proof.
  destruct fnb_gross_estimate as [_ [_ H]].
  apply (H (Samples.sampleExtras None) 10000 24 8.45); reflexivity.
Defined.

(** C3: with both records supplied, a field the proposal found is the
    proposal's, a field it did not find is the email's (which is
    [not_found] when the email did not find it either); with only the
    proposal supplied the merged record is the proposal's, field by
    field. *)
Theorem merge_precedence (Field Val : Type)
  (email proposal : PartialRecord Field Val) (f : Field) :
  (proposal f <> NotFound -> merge (Some email) (Some proposal) f = proposal f) /\
  (proposal f = NotFound -> merge (Some email) (Some proposal) f = email f) /\
  (proposal f = NotFound -> email f = NotFound ->
     merge (Some email) (Some proposal) f = NotFound) /\
  merge None (Some proposal) f = proposal f.
Proof.
  unfold merge, mergeField; cbn [option_map].
  destruct (proposal f) as [|v] eqn:Hp.
  - repeat split; try reflexivity.
    + intros H. now elim H.
    + now intros _ ->.
  - repeat split; try reflexivity; discriminate.
Qed.

Lemma merge_precedence_witness :
  merge (Some (fun _ : string => Found 1))
        (Some (fun f : string => if String.eqb f "fnb_total" then NotFound else Found 2))
        "fnb_total"
  = Found 1.
Proof.
  apply (merge_precedence string float
           (fun _ => Found 1)
           (fun f => if String.eqb f "fnb_total" then NotFound else Found 2)
           "fnb_total").
  reflexivity.
Defined.

End NormalizeProperties.

(* ================================================================== *)
(** ** Properties of the API route *)
(* ================================================================== *)

Section TransformProperties.
Import JS Route.
Local Open Scope js_scope.

Arguments jsOr : simpl never.
Arguments jsAnd : simpl never.
Arguments jsNullish : simpl never.
Arguments optChain : simpl never.
Arguments prop : simpl never.

Lemma jsOr_truthy (a b : value) : truthy a = true -> a ||| b = a.
Proof. intros H. unfold jsOr. now rewrite H. Qed.

Lemma jsOr_falsy (a b : value) : truthy a = false -> a ||| b = b.
Proof. intros H. unfold jsOr. now rewrite H. Qed.

Lemma jsAnd_truthy (a b : value) :
  truthy (a &&& b) = true -> truthy a = true /\ truthy b = true.
Proof.
  unfold jsAnd. destruct (truthy a) eqn:Ha; [now split|].
  intros H. rewrite Ha in H. discriminate.
Qed.

Lemma optChain_nullish (v : value) (k : string) :
  isNullish v = true -> v ?# k = undefined.
Proof. intros H. unfold optChain. now rewrite H. Qed.

Lemma truthy_not_nullish (v : value) : truthy v = true -> isNullish v = false.
Proof. destruct v; simpl; congruence. Qed.

(** The payload the branch taken reads its money fields and its extras
    from. *)
Lemma old_format_sources (d : value) :
  truthy (isOldFormat d) = true ->
  d # "totals" ||| VObj [] = d # "totals" /\ d # "extras" ||| VObj [] = d # "extras".
Proof.
  intros H. apply jsAnd_truthy in H. destruct H as [Ht He].
  split; now apply jsOr_truthy.
Qed.

(** The function is total on every payload that is an actual value. *)
Lemma transform_returns (d : value) :
  isNullish d = false -> exists t, transformMicroserviceResponse d = Return t.
Proof.
  intros H. unfold transformMicroserviceResponse. rewrite H. eauto.
Qed.

Lemma transform_throws (d : value) :
  isNullish d = true -> transformMicroserviceResponse d = Throw TypeError.
Proof.
  intros H. unfold transformMicroserviceResponse. now rewrite H.
Qed.

(** Reading a property of an object literal. *)
Lemma prop_obj (fields : list (string * value)) (k : string) :
  VObj fields # k = lookup k fields.
Proof. reflexivity. Qed.

Ltac in_keys H :=
  repeat (destruct H as [<- | H]; [ | ]); try contradiction.

(** Every money field of the result is the same function of the upstream
    field, in both branches. *)
Lemma transform_money_field (d t : value) (k : string) :
  transformMicroserviceResponse d = Return t ->
  In k moneyKeys ->
  let upstream := (if truthy (isOldFormat d) then d # "totals" else d) # k in
  t # k = VObj [
    ("status", upstream ?# "status" ||| "not_found");
    ("value", upstream ?# "amount" ?? upstream ?# "value" ?? null);
    ("currency", upstream ?# "currency" ||| "USD");
    ("provenance_snippet", upstream ?# "provenance_snippet" ||| null);
    ("notes", upstream ?# "notes" ||| EmptyString) ].
Proof.
  unfold transformMicroserviceResponse.
  destruct (isNullish d); [discriminate|].
  intros Ht Hk. injection Ht as <-.
  destruct (truthy (isOldFormat d)) eqn:Hfmt.
  - destruct (old_format_sources d Hfmt) as [Htot Hext].
    unfold transformOld. rewrite Htot, Hext.
    in_keys Hk; reflexivity.
  - unfold transformNew.
    in_keys Hk; reflexivity.
Qed.

(** The extras of the result, the list of offsets apart, are the upstream
    extras with every falsy value replaced by [null]. *)
Lemma transform_extras_field (d t : value) (k : string) :
  transformMicroserviceResponse d = Return t ->
  In k numericExtrasKeys \/ k = "proposal_url" ->
  t # "extras" # k
  = (if truthy (isOldFormat d) then d # "extras" else d) # k ||| null.
Proof.
  unfold transformMicroserviceResponse.
  destruct (isNullish d); [discriminate|].
  intros Ht Hk. injection Ht as <-.
  destruct (truthy (isOldFormat d)) eqn:Hfmt.
  - destruct (old_format_sources d Hfmt) as [Htot Hext].
    unfold transformOld. rewrite Htot, Hext.
    destruct Hk as [Hk | ->]; [in_keys Hk|]; reflexivity.
  - unfold transformNew.
    destruct Hk as [Hk | ->]; [in_keys Hk|]; reflexivity.
Qed.

Lemma status_not_found_iff (st : value) :
  st ||| "not_found" = VStr "not_found"
  <-> negb (truthy st) || isNotFound st = true.
Proof.
  unfold jsOr. destruct (truthy st) eqn:Hst; cbn [negb orb].
  - destruct st; cbn [isNotFound]; split; try discriminate.
    + intros H. injection H as ->. reflexivity.
    + intros H. apply String.eqb_eq in H. now subst.
  - split; reflexivity.
Qed.

Lemma value_null_iff (amount v : value) :
  amount ?? v ?? null = null
  <-> negb (isNullish amount) || negb (isNullish v) = false.
Proof.
  unfold jsNullish.
  destruct amount; destruct v; cbn; split; intros H;
    first [reflexivity | discriminate H].
Qed.

(** C4, as the claim words it, fails: an upstream total that states the
    status ['explicit'] and gives no amount is handed on with that status
    and a [null] value. *)
Lemma status_without_value_breaks_invariant :
  exists t,
    transformMicroserviceResponse Samples.statusOnlyPayload = Return t /\
    t # "total_quote" # "status" = VStr "explicit" /\
    t # "total_quote" # "value" = null /\
    ~ consistent (t # "total_quote").
Proof.
  eexists. split; [reflexivity|].
  split; [reflexivity|]. split; [reflexivity|].
  intros [_ H]. apply H; [discriminate|reflexivity].
Qed.

(** C4, amended: for every upstream payload and each of the four money
    fields, the transformed status is ['not_found'] exactly when the
    upstream status is missing, falsy or ['not_found'], and the transformed
    value is [null] exactly when upstream gives neither amount nor value; so
    the transformed field satisfies the invariant exactly when the upstream
    field does, and always when the upstream field is absent. *)
Theorem transform_preserves_consistency (d : value) (k : string) :
  isNullish d = false -> In k moneyKeys ->
  exists t,
    transformMicroserviceResponse d = Return t /\
    let upstream := (if truthy (isOldFormat d) then d # "totals" else d) # k in
    (t # k # "status" = VStr "not_found" <-> upstreamNotFound upstream = true) /\
    (t # k # "value" = null <-> upstreamHasValue upstream = false) /\
    (consistent (t # k)
     <-> upstreamNotFound upstream = negb (upstreamHasValue upstream)) /\
    (isNullish upstream = true -> consistent (t # k)).
Proof.
  intros Hd Hk. destruct (transform_returns d Hd) as [t Ht].
  exists t. split; [exact Ht|]. intros upstream.
  pose proof (transform_money_field d t k Ht Hk) as Hf.
  cbv zeta in Hf. fold upstream in Hf.
  assert (Hs : t # k # "status" = upstream ?# "status" ||| "not_found")
    by (rewrite Hf; reflexivity).
  assert (Hv : t # k # "value" = upstream ?# "amount" ?? upstream ?# "value" ?? null)
    by (rewrite Hf; reflexivity).
  assert (S : t # k # "status" = VStr "not_found" <-> upstreamNotFound upstream = true)
    by (rewrite Hs; apply status_not_found_iff).
  assert (V : t # k # "value" = null <-> upstreamHasValue upstream = false)
    by (rewrite Hv; apply value_null_iff).
  assert (C : consistent (t # k)
              <-> upstreamNotFound upstream = negb (upstreamHasValue upstream)).
  { unfold consistent. rewrite S, V.
    destruct (upstreamNotFound upstream), (upstreamHasValue upstream);
      cbn [negb]; intuition congruence. }
  split; [exact S|]. split; [exact V|]. split; [exact C|].
  intros Hn. apply C.
  unfold upstreamNotFound, upstreamHasValue.
  now rewrite !(optChain_nullish upstream _ Hn).
Qed.

Lemma transform_preserves_consistency_witness :
  exists t,
    transformMicroserviceResponse Samples.nestedPayload = Return t /\
    consistent (t # "fnb_total").
Proof.
  destruct (transform_preserves_consistency Samples.nestedPayload "fnb_total")
    as [t [Ht [_ [_ [_ H]]]]].
  - reflexivity.
  - simpl. tauto.
  - exists t. split; [exact Ht|]. apply H. reflexivity.
Defined.

(** C9: in both branches and for each of the four money fields, a field
    that comes without a currency gets the currency ['USD'], and a field
    that is absent altogether becomes status ['not_found'], value [null],
    currency ['USD'], and empty notes. *)
Theorem transform_fills_defaults (d : value) (k : string) :
  isNullish d = false -> In k moneyKeys ->
  exists t,
    transformMicroserviceResponse d = Return t /\
    (truthy (isOldFormat d) = true -> defaultsFilled (d # "totals" # k) (t # k)) /\
    (truthy (isOldFormat d) = false -> defaultsFilled (d # k) (t # k)).
Proof.
  intros Hd Hk. destruct (transform_returns d Hd) as [t Ht].
  exists t. split; [exact Ht|].
  pose proof (transform_money_field d t k Ht Hk) as Hf. cbv zeta in Hf.
  assert (G : forall upstream,
             (if truthy (isOldFormat d) then d # "totals" else d) # k = upstream ->
             defaultsFilled upstream (t # k)).
  { intros upstream Hu. rewrite Hu in Hf. rewrite Hf. split.
    - intros Hc. rewrite prop_obj. cbn [lookup String.eqb Ascii.eqb Bool.eqb].
      rewrite Hc. reflexivity.
    - intros Hn. rewrite !prop_obj. cbn [lookup String.eqb Ascii.eqb Bool.eqb].
      rewrite !(optChain_nullish upstream _ Hn). repeat split. }
  split; intros Hfmt; apply G; now rewrite Hfmt.
Qed.

Lemma transform_fills_defaults_witness :
  exists t,
    transformMicroserviceResponse Samples.flatPayload = Return t /\
    t # "guestroom_total" # "currency" = VStr "USD".
Proof.
  destruct (transform_fills_defaults Samples.flatPayload "guestroom_total")
    as [t [Ht [_ H]]].
  - reflexivity.
  - simpl. tauto.
  - exists t. split; [exact Ht|].
    destruct (H eq_refl) as [Hc _]. apply Hc. reflexivity.
Defined.

(** C10: in both branches, each numeric extras field that upstream reports
    as 0 (or as any other falsy value) is [null] in the transformed
    record. *)
Theorem transform_zero_extras_null (d : value) (k : string) :
  isNullish d = false -> In k numericExtrasKeys ->
  exists t,
    transformMicroserviceResponse d = Return t /\
    (truthy (isOldFormat d) = true ->
       (d # "extras" # k = VNum 0 -> t # "extras" # k = null) /\
       (truthy (d # "extras" # k) = false -> t # "extras" # k = null)) /\
    (truthy (isOldFormat d) = false ->
       (d # k = VNum 0 -> t # "extras" # k = null) /\
       (truthy (d # k) = false -> t # "extras" # k = null)).
Proof.
  intros Hd Hk. destruct (transform_returns d Hd) as [t Ht].
  exists t. split; [exact Ht|].
  pose proof (transform_extras_field d t k Ht (or_introl Hk)) as Hf.
  split; intros Hfmt; rewrite Hfmt in Hf; rewrite Hf; split.
  - intros ->. reflexivity.
  - intros H. now apply jsOr_falsy.
  - intros ->. reflexivity.
  - intros H. now apply jsOr_falsy.
Qed.

Lemma transform_zero_extras_null_witness :
  exists t,
    transformMicroserviceResponse Samples.nestedPayload = Return t /\
    t # "extras" # "nightly_rate" = null.
Proof.
  destruct (transform_zero_extras_null Samples.nestedPayload "nightly_rate")
    as [t [Ht [H _]]].
  - reflexivity.
  - simpl. tauto.
  - exists t. split; [exact Ht|]. apply H; reflexivity.
Defined.

(** C7: a nested payload and a flat payload that holds the same money
    fields, the same extras and the same common fields at its top level are
    transformed into the same record. *)
Theorem transform_formats_agree (d_old d_new : value) :
  truthy (isOldFormat d_old) = true ->
  isNullish d_new = false ->
  truthy (isOldFormat d_new) = false ->
  (forall k, In k moneyKeys -> d_new # k = d_old # "totals" # k) ->
  (forall k, In k extrasKeys -> d_new # k = d_old # "extras" # k) ->
  (forall k, In k commonKeys -> d_new # k = d_old # k) ->
  exists t,
    transformMicroserviceResponse d_old = Return t /\
    transformMicroserviceResponse d_new = Return t.
Proof.
  intros Hold Hnn Hnew Hmoney Hextras Hcommon.
  assert (Hon : isNullish d_old = false).
  { destruct d_old; try reflexivity; discriminate Hold. }
  destruct (old_format_sources d_old Hold) as [Htot Hext].
  unfold transformMicroserviceResponse.
  rewrite Hon, Hnn, Hold, Hnew.
  eexists. split; [reflexivity|]. f_equal.
  unfold transformOld, transformNew. rewrite Htot, Hext.
  rewrite !(Hmoney "total_quote"), !(Hmoney "guestroom_total"),
          !(Hmoney "meeting_room_total"), !(Hmoney "fnb_total")
    by (simpl; tauto).
  rewrite !(Hextras "room_nights"), !(Hextras "nightly_rate"),
          !(Hextras "tax_rate_pct"), !(Hextras "service_rate_pct"),
          !(Hextras "fnb_minimum"), !(Hextras "proposal_url"),
          !(Hextras "guestroom_base"), !(Hextras "guestroom_taxes_fees"),
          !(Hextras "estimated_fnb_gross"), !(Hextras "effective_value_offsets")
    by (simpl; tauto).
  rewrite !(Hcommon "property"), !(Hcommon "program"), !(Hcommon "concessions"),
          !(Hcommon "policies"), !(Hcommon "sources")
    by (simpl; tauto).
  reflexivity.
Qed.

Lemma transform_formats_agree_witness :
  exists t,
    transformMicroserviceResponse Samples.nestedPayload = Return t /\
    transformMicroserviceResponse Samples.flatPayload = Return t.
Proof.
  apply (transform_formats_agree Samples.nestedPayload Samples.flatPayload);
    try reflexivity;
    intros k Hk; in_keys Hk; reflexivity.
Defined.

End TransformProperties.

Section HandlerProperties.
Import JS Route.
Local Open Scope js_scope.

Variable env : option string.
Variable fetch : string -> FormData -> option Response.

(** What the part of the handler after [fetch] can return. *)
Lemma handleResponse_returns (response : Response) (r : NextResponse) :
  handleResponse response = Return r ->
  ok response = true /\
  exists result,
    json response = Some result /\
    ((truthy (result # "success") = false /\
      r = NextResponse_json (errorBody (result # "error")) 500) \/
     (truthy (result # "success") = true /\
      exists data,
        transformMicroserviceResponse (result # "data") = Return data /\
        r = NextResponse_json
              (successBody data (result # "sources") (result # "urls_found")) 200)).
Proof.
  unfold handleResponse.
  destruct (ok response); cbn [negb]; [|discriminate].
  intros H. split; [reflexivity|].
  destruct (json response) as [result|]; cbn [bind] in H; [|discriminate].
  exists result. split; [reflexivity|].
  destruct (isNullish result); [discriminate|].
  destruct (truthy (result # "success")); cbn [negb] in H.
  - right. split; [reflexivity|].
    destruct (transformMicroserviceResponse (result # "data")) as [data|e];
      cbn [bind] in H; [|discriminate].
    exists data. split; [reflexivity|]. now injection H as <-.
  - left. split; [reflexivity|]. now injection H as <-.
Qed.

(** What the [try] block can return: the rejection, before any [fetch], or
    what the part after the one [fetch] returns. *)
Lemma tryBlock_returns (request : NextRequest) (r : NextResponse) (calls : list FetchCall) :
  tryBlock env fetch request = (Return r, calls) ->
  (r = NextResponse_json (errorBody "No content provided for extraction") 400 /\
   calls = []) \/
  (exists body response,
      fetch (MICROSERVICE_URL env ++ "/extract") body = Some response /\
      handleResponse response = Return r).
Proof.
  unfold tryBlock.
  destruct (formData request) as [form|]; [|discriminate].
  destruct (FormData_get form "email_content") as [[s | name size type] | ];
    try discriminate.
  all: match goal with
       | |- context [fetch _ ?b] => generalize b; intros body
       end.
  all: match goal with
       | |- context [if ?c then (Return _, []) else _] => destruct c
       end.
  all: try (intros H; injection H as <- <-; left; split; reflexivity).
  all: destruct (fetch (MICROSERVICE_URL env ++ "/extract") body) as [response|] eqn:Hfetch;
         [|discriminate].
  all: intros H; injection H as Hr _; right; exists body, response; split; assumption.
Qed.


(** C6, amended: every response is either the success response, status
    200 with [success: true] and the transformed data of an upstream answer
    that reported success, or an error response: status 400 or 500 and a
    body that holds an [error] property and nothing else, so neither a
    [success] field nor data.  The error is 'No content provided for
    extraction' (400, nothing fetched), 'Failed to process content' (500,
    any exception), or whatever the upstream answer holds under [error]
    (500, upstream reported failure). *)
Theorem post_failure_shape (request : NextRequest) :
  let r := fst (POST env fetch request) in
  let calls := snd (POST env fetch request) in
  (exists body response result data,
      fetch (MICROSERVICE_URL env ++ "/extract") body = Some response /\
      ok response = true /\
      json response = Some result /\
      truthy (result # "success") = true /\
      transformMicroserviceResponse (result # "data") = Return data /\
      r = NextResponse_json
            (successBody data (result # "sources") (result # "urls_found")) 200)
  \/
  (exists error,
      resp_body r = errorBody error /\
      resp_body r # "success" = undefined /\
      resp_body r # "data" = undefined /\
      ((resp_status r = 400%Z /\
        error = VStr "No content provided for extraction" /\ calls = []) \/
       (resp_status r = 500%Z /\ error = VStr "Failed to process content") \/
       (resp_status r = 500%Z /\
        exists body response result,
          fetch (MICROSERVICE_URL env ++ "/extract") body = Some response /\
          json response = Some result /\
          truthy (result # "success") = false /\
          error = result # "error"))).
Proof.
  pose proof (tryBlock_returns request) as Htry.
  unfold POST. destruct (tryBlock env fetch request) as [[r0 | e] calls0].
  - specialize (Htry r0 calls0 eq_refl). cbn [fst snd].
    destruct Htry as [[-> ->] | [body [response [Hfetch Hr]]]].
    + right. exists (VStr "No content provided for extraction").
      repeat split. left. repeat split.
    + apply handleResponse_returns in Hr.
      destruct Hr as [Hok [result [Hjson [[Hs ->] | [Hs [data [Hdata ->]]]]]]].
      * right. exists (result # "error"). repeat split.
        right. right. split; [reflexivity|].
        exists body, response, result. repeat split; assumption.
      * left. exists body, response, result, data. repeat split; assumption.
  - cbn [fst snd]. right. exists (VStr "Failed to process content").
    repeat split. right. left. split; reflexivity.
Qed.

End HandlerProperties.


(** C6, as the claim words it, fails: the answer to a request without
    content is [{ error: ... }] with status 400, a body with no [success]
    field at all; and when the service reports a failure without a message
    the body holds no error string either. *)
Lemma failure_body_lacks_success_field :
  let r := fst (Route.POST None Samples.unreachable Samples.emptyRequest) in
  let r' := fst (Route.POST None Samples.silentFailure Samples.emailRequest) in
  Route.resp_status r = 400%Z /\
  JS.prop (Route.resp_body r) "success" = JS.VUndefined /\
  JS.prop (Route.resp_body r) "success" <> JS.VBool false /\
  Route.resp_status r' = 500%Z /\
  JS.prop (Route.resp_body r') "success" <> JS.VBool false /\
  JS.prop (Route.resp_body r') "error" = JS.VUndefined.
Proof.
  repeat split; try reflexivity; discriminate.
Qed.

(* ================================================================== *)
(** ** Further properties of [transformMicroserviceResponse] *)
(* ================================================================== *)

Section TransformShape.
Import JS Route.
Local Open Scope js_scope.

Arguments jsOr : simpl never.
Arguments jsAnd : simpl never.
Arguments jsNullish : simpl never.
Arguments optChain : simpl never.
Arguments prop : simpl never.

Ltac pick_key H :=
  repeat (destruct H as [<- | H]; [ | ]); try contradiction.

Lemma jsOr_default_truthy (a b : value) : truthy b = true -> truthy (a ||| b) = true.
Proof. intros H. unfold jsOr. destruct (truthy a) eqn:Ha; assumption. Qed.

Lemma jsOr_not_undefined (a b : value) : b <> undefined -> a ||| b <> undefined.
Proof.
  intros H. unfold jsOr. destruct (truthy a) eqn:Ha; [|assumption].
  intros ->. discriminate Ha.
Qed.

Lemma jsOr_idem (a b : value) : (a ||| b) ||| b = a ||| b.
Proof.
  unfold jsOr. destruct (truthy a) eqn:Ha; [now rewrite Ha|].
  now destruct (truthy b).
Qed.

Lemma optChain_obj (fields : list (string * value)) (k : string) :
  VObj fields ?# k = lookup k fields.
Proof. reflexivity. Qed.

Lemma jsNullish_null_not_undefined (a b : value) : a ?? b ?? null <> undefined.
Proof. unfold jsNullish. destruct a; destruct b; discriminate. Qed.

Lemma transform_returns_object (d t : value) :
  transformMicroserviceResponse d = Return t -> exists fields, t = VObj fields.
Proof.
  unfold transformMicroserviceResponse.
  destruct (isNullish d); [discriminate|].
  intros H. injection H as <-.
  destruct (truthy (isOldFormat d)); eexists; reflexivity.
Qed.

(** The five common fields, in both branches. *)
Lemma transform_common_field (d t : value) (k : string) :
  transformMicroserviceResponse d = Return t ->
  In k commonKeys ->
  t # k = d # k ||| (if String.eqb k "concessions" || String.eqb k "sources"
                     then VArr [] else VObj []).
Proof.
  unfold transformMicroserviceResponse.
  destruct (isNullish d); [discriminate|].
  intros Ht Hk. injection Ht as <-.
  destruct (truthy (isOldFormat d)); pick_key Hk; reflexivity.
Qed.

Lemma transform_offsets_field (d t : value) :
  transformMicroserviceResponse d = Return t ->
  t # "extras" # "effective_value_offsets"
  = (if truthy (isOldFormat d) then d # "extras" else d) # "effective_value_offsets"
    ||| VArr [].
Proof.
  unfold transformMicroserviceResponse.
  destruct (isNullish d); [discriminate|].
  intros Ht. injection Ht as <-.
  destruct (truthy (isOldFormat d)) eqn:Hfmt.
  - destruct (old_format_sources d Hfmt) as [Htot Hext].
    unfold transformOld. rewrite Htot, Hext. reflexivity.
  - reflexivity.
Qed.

(** What the result does not have at its top level. *)
Lemma transform_top_level (d t : value) (k : string) :
  transformMicroserviceResponse d = Return t ->
  k = "totals" \/ In k extrasKeys ->
  t # k = undefined.
Proof.
  unfold transformMicroserviceResponse.
  destruct (isNullish d); [discriminate|].
  intros Ht Hk. injection Ht as <-.
  destruct (truthy (isOldFormat d)); destruct Hk as [-> | Hk];
    try reflexivity; pick_key Hk; reflexivity.
Qed.

(** X1: a payload that lacks a truthy [totals] or a truthy [extras] is read
    as flat, so a money field that is not at its top level comes out as
    ['not_found'] with a [null] value, whatever [totals] holds. *)
Theorem transform_nested_needs_both (d : value) (k : string) :
  isNullish d = false ->
  truthy (d # "totals") = false \/ truthy (d # "extras") = false ->
  In k moneyKeys ->
  isNullish (d # k) = true ->
  exists t,
    transformMicroserviceResponse d = Return t /\
    t # k # "status" = VStr "not_found" /\
    t # k # "value" = null.
Proof.
  intros Hd Hmiss Hk Hn. destruct (transform_returns d Hd) as [t Ht].
  exists t. split; [exact Ht|].
  pose proof (transform_money_field d t k Ht Hk) as Hf. cbv zeta in Hf.
  assert (Hfmt : truthy (isOldFormat d) = false).
  { unfold isOldFormat, jsAnd.
    destruct (truthy (d # "totals")) eqn:E; [|exact E].
    destruct Hmiss as [H | H]; [discriminate H|exact H]. }
  rewrite Hfmt in Hf. rewrite Hf, !prop_obj. cbn [lookup String.eqb Ascii.eqb Bool.eqb].
  rewrite !(optChain_nullish (d # k) _ Hn). split; reflexivity.
Qed.

Lemma transform_nested_needs_both_witness :
  exists t,
    transformMicroserviceResponse Samples.totalsOnlyPayload = Return t /\
    t # "guestroom_total" # "status" = VStr "not_found" /\
    t # "guestroom_total" # "value" = null.
Proof.
  apply (transform_nested_needs_both Samples.totalsOnlyPayload "guestroom_total").
  - reflexivity.
  - right. reflexivity.
  - simpl. tauto.
  - reflexivity.
Defined.

(** X2: of an upstream money field, [amount] is taken whenever it is given,
    a zero included, and [value] only when [amount] is missing or [null]. *)
Theorem transform_amount_first (d : value) (k : string) :
  isNullish d = false -> In k moneyKeys ->
  exists t,
    transformMicroserviceResponse d = Return t /\
    let upstream := (if truthy (isOldFormat d) then d # "totals" else d) # k in
    (isNullish (upstream ?# "amount") = false ->
       t # k # "value" = upstream ?# "amount") /\
    (isNullish (upstream ?# "amount") = true ->
     isNullish (upstream ?# "value") = false ->
       t # k # "value" = upstream ?# "value").
Proof.
  intros Hd Hk. destruct (transform_returns d Hd) as [t Ht].
  exists t. split; [exact Ht|]. intros upstream.
  pose proof (transform_money_field d t k Ht Hk) as Hf.
  cbv zeta in Hf. fold upstream in Hf.
  rewrite Hf, prop_obj. cbn [lookup String.eqb Ascii.eqb Bool.eqb].
  unfold jsNullish. split.
  - intros Ha. now rewrite Ha, Ha.
  - intros Ha Hv. now rewrite Ha, Hv.
Qed.

Lemma transform_amount_first_witness :
  exists t,
    transformMicroserviceResponse Samples.zeroAmountPayload = Return t /\
    t # "total_quote" # "value" = VNum 0.
Proof.
  destruct (transform_amount_first Samples.zeroAmountPayload "total_quote")
    as [t [Ht [H _]]].
  - reflexivity.
  - simpl. tauto.
  - exists t. split; [exact Ht|]. apply H. reflexivity.
Defined.

(** X3: the result has no hole.  Every money field has a truthy status and
    currency and a value, snippet and notes that are not [undefined]; no
    extras field is [undefined]; every common field is truthy. *)
Theorem transform_result_complete (d : value) :
  isNullish d = false ->
  exists t,
    transformMicroserviceResponse d = Return t /\
    (forall k, In k moneyKeys ->
       truthy (t # k # "status") = true /\
       truthy (t # k # "currency") = true /\
       t # k # "value" <> undefined /\
       t # k # "provenance_snippet" <> undefined /\
       t # k # "notes" <> undefined) /\
    (forall k, In k extrasKeys -> t # "extras" # k <> undefined) /\
    (forall k, In k commonKeys -> truthy (t # k) = true).
Proof.
  intros Hd. destruct (transform_returns d Hd) as [t Ht].
  exists t. split; [exact Ht|]. split; [|split].
  - intros k Hk.
    pose proof (transform_money_field d t k Ht Hk) as Hf. cbv zeta in Hf.
    rewrite Hf, !prop_obj. cbn [lookup String.eqb Ascii.eqb Bool.eqb].
    repeat split.
    + now apply jsOr_default_truthy.
    + now apply jsOr_default_truthy.
    + apply jsNullish_null_not_undefined.
    + apply jsOr_not_undefined. discriminate.
    + apply jsOr_not_undefined. discriminate.
  - intros k [<- | [<- | Hk]].
    + rewrite (transform_extras_field d t _ Ht (or_intror eq_refl)).
      apply jsOr_not_undefined. discriminate.
    + rewrite (transform_offsets_field d t Ht).
      apply jsOr_not_undefined. discriminate.
    + rewrite (transform_extras_field d t k Ht (or_introl Hk)).
      apply jsOr_not_undefined. discriminate.
  - intros k Hk. rewrite (transform_common_field d t k Ht Hk).
    apply jsOr_default_truthy.
    now destruct (String.eqb k "concessions" || String.eqb k "sources").
Qed.

Lemma transform_result_complete_witness :
  exists t,
    transformMicroserviceResponse Samples.statusOnlyPayload = Return t /\
    t # "fnb_total" # "value" <> undefined.
Proof.
  destruct (transform_result_complete Samples.statusOnlyPayload) as [t [Ht [H _]]].
  - reflexivity.
  - exists t. split; [exact Ht|]. apply (H "fnb_total"). simpl. tauto.
Defined.

(** X4: each of property, program, concessions, policies and sources is the
    upstream value, unchanged, whenever that is truthy, in both formats. *)
Theorem transform_common_pass_through (d : value) (k : string) :
  isNullish d = false -> In k commonKeys -> truthy (d # k) = true ->
  exists t,
    transformMicroserviceResponse d = Return t /\ t # k = d # k.
Proof.
  intros Hd Hk Hv. destruct (transform_returns d Hd) as [t Ht].
  exists t. split; [exact Ht|].
  rewrite (transform_common_field d t k Ht Hk). now apply jsOr_truthy.
Qed.

Lemma transform_common_pass_through_witness :
  exists t,
    transformMicroserviceResponse Samples.nestedPayload = Return t /\
    t # "sources" = VArr [VStr "proposal"].
Proof.
  apply (transform_common_pass_through Samples.nestedPayload "sources").
  - reflexivity.
  - simpl. tauto.
  - reflexivity.
Defined.

(** X5: the result is not in either input format.  Transformed once more,
    its four money fields and its common fields stay as they are, and every
    extras field is lost: the numeric ones and the URL become [null]. *)
Theorem transform_twice (d t : value) :
  transformMicroserviceResponse d = Return t ->
  exists t2,
    transformMicroserviceResponse t = Return t2 /\
    (forall k, In k moneyKeys -> t2 # k = t # k) /\
    (forall k, In k commonKeys -> t2 # k = t # k) /\
    (forall k, In k numericExtrasKeys \/ k = "proposal_url" ->
       t2 # "extras" # k = null) /\
    t2 # "extras" # "effective_value_offsets" = VArr [].
Proof.
  intros Ht.
  destruct (transform_returns_object d t Ht) as [fields Hobj].
  assert (Hn : isNullish t = false) by (rewrite Hobj; reflexivity).
  destruct (transform_returns t Hn) as [t2 Ht2].
  exists t2. split; [exact Ht2|].
  assert (Hfmt : truthy (isOldFormat t) = false).
  { unfold isOldFormat, jsAnd.
    rewrite (transform_top_level d t "totals" Ht (or_introl eq_refl)). reflexivity. }
  split; [|split; [|split]].
  - intros k Hk.
    pose proof (transform_money_field t t2 k Ht2 Hk) as H2. cbv zeta in H2.
    rewrite Hfmt in H2. rewrite H2.
    pose proof (transform_money_field d t k Ht Hk) as H1. cbv zeta in H1.
    rewrite H1. set (u := (if truthy (isOldFormat d) then d # "totals" else d) # k).
    rewrite !optChain_obj. cbn [lookup String.eqb Ascii.eqb Bool.eqb].
    rewrite !jsOr_idem.
    assert (Hv : undefined ?? (u ?# "amount" ?? u ?# "value" ?? null) ?? null
                 = u ?# "amount" ?? u ?# "value" ?? null).
    { unfold jsNullish. destruct (u ?# "amount"); destruct (u ?# "value"); reflexivity. }
    now rewrite Hv.
  - intros k Hk.
    rewrite (transform_common_field t t2 k Ht2 Hk).
    rewrite (transform_common_field d t k Ht Hk).
    apply jsOr_idem.
  - intros k Hk.
    rewrite (transform_extras_field t t2 k Ht2 Hk), Hfmt.
    rewrite (transform_top_level d t k Ht); [reflexivity|].
    right. destruct Hk as [Hk | ->]; simpl; [tauto|tauto].
  - rewrite (transform_offsets_field t t2 Ht2), Hfmt.
    rewrite (transform_top_level d t "effective_value_offsets" Ht); [reflexivity|].
    right. simpl. tauto.
Qed.

Lemma transform_twice_witness :
  exists t t2,
    transformMicroserviceResponse Samples.nestedPayload = Return t /\
    transformMicroserviceResponse t = Return t2 /\
    t # "extras" # "room_nights" = VNum 240 /\
    t2 # "extras" # "room_nights" = null.
Proof.
  destruct (transform_returns Samples.nestedPayload eq_refl) as [t Ht].
  destruct (transform_twice Samples.nestedPayload t Ht) as [t2 [Ht2 [_ [_ [H _]]]]].
  exists t, t2. split; [exact Ht|]. split; [exact Ht2|]. split.
  - injection Ht as <-. reflexivity.
  - apply H. left. simpl. tauto.
Defined.

End TransformShape.

(* ================================================================== *)
(** ** Further properties of [POST] *)
(* ================================================================== *)

Section Forwarding.
Import JS Route.
Local Open Scope js_scope.

Variable env : option string.
Variable fetch : string -> FormData -> option Response.

Let url : string := (MICROSERVICE_URL env ++ "/extract")%string.

(** The entry the legacy field is handed on under. *)
Let legacyKey (v : FormDataEntryValue) : string :=
  if isPdf (Some v) then "proposal_file" else "email_file".

Ltac field_cases form key name :=
  let P := fresh "P" name in
  let E := fresh "E" name in
  remember (FormData_get form key) as name eqn:E;
  symmetry in E;
  destruct (present name) eqn:P;
  [ destruct name as [name|]; [|discriminate P] | ].

Ltac pick_forwarded H :=
  repeat (destruct H as [<- | H]; [ | ]); try contradiction.

(** Once a request has passed the check, the [try] block makes one call
    and goes on with its answer; what it sends is made of the request's own
    entries. *)
Lemma tryBlock_forwards (request : NextRequest) (form : FormData) :
  formData request = Some form ->
  textOrAbsent (FormData_get form "email_content") = true ->
  anyContent form = true ->
  exists body,
    tryBlock env fetch request
    = (match fetch url body with
       | Some response => handleResponse response
       | None => Throw NetworkError
       end,
       [{| call_url := url; call_body := body |}]) /\
    (forall k v, In (k, v) body ->
       In k forwardedKeys /\ present (Some v) = true /\
       (FormData_get form k = Some v \/
        (FormData_get form "file" = Some v /\ k = legacyKey v /\
         present (FormData_get form "proposal_file") = false /\
         present (FormData_get form "email_file") = false))) /\
    (forall k v, In k forwardedKeys -> FormData_get form k = Some v ->
       present (Some v) = true -> In (k, v) body) /\
    (forall v, FormData_get form "file" = Some v -> present (Some v) = true ->
       present (FormData_get form "proposal_file") = false ->
       present (FormData_get form "email_file") = false ->
       In (legacyKey v, v) body) /\
    NoDup (map fst body).
Proof.
  intros Hform Htext Hany.
  unfold tryBlock, anyContent in *. rewrite Hform.
  field_cases form "email_file" ef.
  all: field_cases form "proposal_file" pf.
  all: field_cases form "proposal_url" pu.
  all: field_cases form "file" lf.
  all: destruct (FormData_get form "email_content") as [[s | name size type] | ] eqn:Eec;
         try discriminate Htext.
  all: try (destruct (present (Some (FString s))) eqn:Pec).
  all: try (cbn [present orb] in Hany; discriminate Hany).
  all: rewrite ?Pef, ?Ppf, ?Ppu, ?Plf;
       try change (present None) with false;
       cbn [negb andb orb FormData_append app];
       try (destruct (isPdf (Some lf)) eqn:Hpdf);
       cbn [FormData_append app].
  all: match goal with
       | |- context [fetch _ ?b] => exists b
       end.
  all: split; [unfold url; destruct (fetch _ _); reflexivity|].
  all: split; [|split; [|split]].
  all: try (intros k v Hin; cbn [In] in Hin;
            repeat (destruct Hin as [Hin | Hin]; [injection Hin as <- <-|]);
            try contradiction;
            (split; [simpl; tauto|]); (split; [assumption|]);
            first [ left; assumption
                  | right; unfold legacyKey; rewrite ?Hpdf; repeat split; congruence ]).
  all: try (intros k v Hk Hget Hp; pick_forwarded Hk;
            match goal with
            | E : FormData_get ?f ?key = _, H : FormData_get ?f ?key = Some _ |- _ =>
                rewrite E in H;
                first [ injection H as <-; simpl; tauto
                      | discriminate H
                      | subst; congruence ]
            end).
  all: try (intros v Hget Hp Hnp Hne;
            first [ discriminate
                  | subst; congruence
                  | injection Hget as <-; unfold legacyKey; rewrite ?Hpdf; simpl; tauto ]).
  all: try (cbn [map fst]; repeat constructor; simpl; intuition discriminate).
Qed.

Lemma POST_calls (request : NextRequest) :
  snd (POST env fetch request) = snd (tryBlock env fetch request).
Proof.
  unfold POST. now destruct (tryBlock env fetch request) as [[r | e] calls].
Qed.

Lemma tryBlock_no_call (request : NextRequest) :
  formData request = None \/
  (exists form, formData request = Some form /\
     (textOrAbsent (FormData_get form "email_content") = false \/
      anyContent form = false)) ->
  snd (tryBlock env fetch request) = [].
Proof.
  unfold tryBlock. intros [-> | [form [-> [H | H]]]]; [reflexivity| |].
  - destruct (FormData_get form "email_content") as [[s | name size type] | ];
      try discriminate H; reflexivity.
  - unfold anyContent in H.
    repeat (apply orb_false_elim in H; destruct H as [H ?]).
    destruct (FormData_get form "email_content") as [[s | name size type] | ];
      try reflexivity.
    + match goal with
      | |- context [if ?c then (Return _, []) else _] =>
          replace c with true; [reflexivity|]
      end.
      symmetry.
      repeat match goal with
             | E : present _ = false |- _ => rewrite E; clear E
             end.
      reflexivity.
    + match goal with
      | |- context [if ?c then (Return _, []) else _] =>
          replace c with true; [reflexivity|]
      end.
      symmetry.
      repeat match goal with
             | E : present _ = false |- _ => rewrite E; clear E
             end.
      reflexivity.
Qed.

(** X6: the extraction service is called exactly when the request's form
    can be read, its [email_content] is not a file and one of the five
    fields is set; then it is called once, at [MICROSERVICE_URL/extract].
    In every other case no call is made. *)
Theorem service_called_once (request : NextRequest) :
  (forall form,
      formData request = Some form ->
      textOrAbsent (FormData_get form "email_content") = true ->
      anyContent form = true ->
      exists body,
        snd (POST env fetch request)
        = [{| call_url := (MICROSERVICE_URL env ++ "/extract")%string;
              call_body := body |}]) /\
  (formData request = None \/
   (exists form, formData request = Some form /\
      (textOrAbsent (FormData_get form "email_content") = false \/
       anyContent form = false)) ->
   snd (POST env fetch request) = []).
Proof.
  split.
  - intros form Hform Htext Hany.
    destruct (tryBlock_forwards request form Hform Htext Hany) as [body [Hb _]].
    exists body. rewrite POST_calls, Hb. reflexivity.
  - intros H. rewrite POST_calls. now apply tryBlock_no_call.
Qed.

(** A call that was made tells that the request had passed the check. *)
Lemma call_made (request : NextRequest) (form : FormData) (c : FetchCall) :
  formData request = Some form ->
  In c (snd (POST env fetch request)) ->
  textOrAbsent (FormData_get form "email_content") = true /\
  anyContent form = true.
Proof.
  intros Hform Hin.
  destruct (textOrAbsent (FormData_get form "email_content")) eqn:Ht;
    [destruct (anyContent form) eqn:Ha; [now split|]|].
  - rewrite POST_calls, tryBlock_no_call in Hin; [contradiction|].
    right. exists form. auto.
  - rewrite POST_calls, tryBlock_no_call in Hin; [contradiction|].
    right. exists form. auto.
Qed.

(** X7: whatever is sent to the extraction service comes from the request.
    Every entry sent is named email_content, email_file, proposal_file or
    proposal_url, no name twice; it is non-empty; and it is the request's
    entry of that name, or else the request's [file], sent because the
    request has neither a proposal_file nor an email_file. *)
Theorem forwarded_entries_sound (request : NextRequest) (form : FormData)
  (c : FetchCall) :
  formData request = Some form ->
  In c (snd (POST env fetch request)) ->
  NoDup (map fst (call_body c)) /\
  (forall k v, In (k, v) (call_body c) ->
     In k forwardedKeys /\ present (Some v) = true /\
     (FormData_get form k = Some v \/
      (FormData_get form "file" = Some v /\
       present (FormData_get form "proposal_file") = false /\
       present (FormData_get form "email_file") = false))).
Proof.
  intros Hform Hin.
  destruct (call_made request form c Hform Hin) as [Htext Hany].
  destruct (tryBlock_forwards request form Hform Htext Hany)
    as [body [Hb [Hs [_ [_ Hn]]]]].
  rewrite POST_calls, Hb in Hin. destruct Hin as [<- | []]. cbn [call_body].
  split; [exact Hn|].
  intros k v Hkv.
  destruct (Hs k v Hkv) as [Hk [Hp [Hg | [Hg [_ [H1 H2]]]]]];
    (split; [exact Hk|]); (split; [exact Hp|]).
  - left. exact Hg.
  - right. repeat split; assumption.
Qed.



(** X10: every way the extraction service can fail other than by reporting
    [success: false] ends in the same answer, status 500 with the error
    'Failed to process content'; the upstream status and text are not
    passed on. *)
Theorem upstream_failure_hidden (request : NextRequest) (form : FormData)
  (outcome : option Response) :
  formData request = Some form ->
  textOrAbsent (FormData_get form "email_content") = true ->
  anyContent form = true ->
  (forall body, fetch (MICROSERVICE_URL env ++ "/extract")%string body = outcome) ->
  upstreamThrows outcome ->
  fst (POST env fetch request)
  = NextResponse_json (errorBody "Failed to process content") 500.
Proof.
  intros Hform Htext Hany Hfetch Hthrows.
  destruct (tryBlock_forwards request form Hform Htext Hany) as [body [Hb _]].
  unfold POST. rewrite Hb. unfold url. rewrite Hfetch.
  destruct outcome as [response|]; [|reflexivity].
  unfold upstreamThrows in Hthrows. unfold handleResponse.
  destruct Hthrows as [Hok | Hjson]; [now rewrite Hok|].
  destruct (ok response); [|reflexivity]. cbn [negb].
  destruct (json response) as [result|]; [|reflexivity]. cbn [bind].
  destruct Hjson as [Hnull | [Hs Hdata]]; [now rewrite Hnull|].
  destruct (isNullish result); [reflexivity|].
  rewrite Hs. cbn [negb].
  unfold transformMicroserviceResponse. now rewrite Hdata.
Qed.

(** X11: when the extraction service reports a failure, the answer is
    status 500 and carries whatever the service gave under [error]. *)
Theorem reported_failure_passed_on (request : NextRequest) (form : FormData)
  (response : Response) (result : value) :
  formData request = Some form ->
  textOrAbsent (FormData_get form "email_content") = true ->
  anyContent form = true ->
  (forall body,
     fetch (MICROSERVICE_URL env ++ "/extract")%string body = Some response) ->
  ok response = true ->
  json response = Some result ->
  isNullish result = false ->
  truthy (result # "success") = false ->
  fst (POST env fetch request)
  = NextResponse_json (errorBody (result # "error")) 500.
Proof.
  intros Hform Htext Hany Hfetch Hok Hjson Hnn Hs.
  destruct (tryBlock_forwards request form Hform Htext Hany) as [body [Hb _]].
  unfold POST. rewrite Hb. unfold url. rewrite Hfetch.
  unfold handleResponse. rewrite Hok, Hjson. cbn [negb bind].
  now rewrite Hnn, Hs.
Qed.

(** X12: when the extraction service reports success with data, the answer
    is status 200 with [success: true], the transformed data, and the
    service's [sources] and [urls_found] as they came. *)
Theorem success_answer (request : NextRequest) (form : FormData)
  (response : Response) (result : value) :
  formData request = Some form ->
  textOrAbsent (FormData_get form "email_content") = true ->
  anyContent form = true ->
  (forall body,
     fetch (MICROSERVICE_URL env ++ "/extract")%string body = Some response) ->
  ok response = true ->
  json response = Some result ->
  truthy (result # "success") = true ->
  isNullish (result # "data") = false ->
  exists data,
    transformMicroserviceResponse (result # "data") = Return data /\
    fst (POST env fetch request)
    = NextResponse_json
        (successBody data (result # "sources") (result # "urls_found")) 200.
Proof.
  intros Hform Htext Hany Hfetch Hok Hjson Hs Hdata.
  destruct (transform_returns (result # "data") Hdata) as [data Ht].
  exists data. split; [exact Ht|].
  destruct (tryBlock_forwards request form Hform Htext Hany) as [body [Hb _]].
  unfold POST. rewrite Hb. unfold url. rewrite Hfetch.
  unfold handleResponse. rewrite Hok, Hjson. cbn [negb bind].
  assert (Hnn : isNullish result = false).
  { destruct result; try reflexivity; discriminate Hs. }
  rewrite Hnn, Hs. cbn [negb]. rewrite Ht. reflexivity.
Qed.

(** X13: a request whose body cannot be read as a form, or whose
    [email_content] is a file, is answered with status 500 and 'Failed to
    process content', and the extraction service is not called. *)
Theorem unreadable_request (request : NextRequest) :
  formData request = None \/
  (exists form, formData request = Some form /\
     textOrAbsent (FormData_get form "email_content") = false) ->
  POST env fetch request
  = (NextResponse_json (errorBody "Failed to process content") 500, []).
Proof.
  unfold POST, tryBlock. intros [-> | [form [-> H]]]; [reflexivity|].
  destruct (FormData_get form "email_content") as [[s | name size type] | ];
    try discriminate H; reflexivity.
Qed.

End Forwarding.

Lemma service_called_once_witness :
  exists body,
    snd (Route.POST None Samples.unreachable Samples.legacyRequest)
    = [{| Route.call_url := "http://localhost:8000/extract";
          Route.call_body := body |}].
Proof.
  destruct (service_called_once None Samples.unreachable Samples.legacyRequest)
    as [H _].
  apply (H [("file", Samples.legacyPdf);
            ("proposal_url", Route.FString "https://example.com/proposal")]);
    reflexivity.
Defined.

Lemma forwarded_entries_sound_witness :
  NoDup ["proposal_url"; "proposal_file"].
Proof.
  apply (forwarded_entries_sound None Samples.unreachable Samples.legacyRequest
           [("file", Samples.legacyPdf);
            ("proposal_url", Route.FString "https://example.com/proposal")]
           {| Route.call_url := "http://localhost:8000/extract";
              Route.call_body :=
                [("proposal_url", Route.FString "https://example.com/proposal");
                 ("proposal_file", Samples.legacyPdf)] |}).
  - reflexivity.
  - left. reflexivity.
Defined.



Lemma upstream_failure_hidden_witness :
  fst (Route.POST None (Samples.answering Samples.badGateway) Samples.emailRequest)
  = Route.NextResponse_json
      (Route.errorBody (JS.VStr "Failed to process content")) 500.
Proof.
  apply (upstream_failure_hidden None (Samples.answering Samples.badGateway)
           Samples.emailRequest
           [("email_content", Route.FString "Rate is $192 per night")]
           (Some Samples.badGateway));
    try reflexivity.
  left. reflexivity.
Defined.

Lemma reported_failure_passed_on_witness :
  fst (Route.POST None (Samples.answering Samples.reportedFailure) Samples.emailRequest)
  = Route.NextResponse_json
      (Route.errorBody (JS.VStr "No text could be extracted")) 500.
Proof.
  apply (reported_failure_passed_on None (Samples.answering Samples.reportedFailure)
           Samples.emailRequest
           [("email_content", Route.FString "Rate is $192 per night")]
           Samples.reportedFailure
           (JS.VObj [("success", JS.VBool false);
                     ("error", JS.VStr "No text could be extracted")]));
    reflexivity.
Defined.

Lemma success_answer_witness :
  exists data,
    Route.transformMicroserviceResponse Samples.flatPayload = JS.Return data /\
    Route.resp_status
      (fst (Route.POST None (Samples.answering Samples.extracted) Samples.emailRequest))
    = 200%Z.
Proof.
  destruct (success_answer None (Samples.answering Samples.extracted)
              Samples.emailRequest
              [("email_content", Route.FString "Rate is $192 per night")]
              Samples.extracted
              (JS.VObj [("success", JS.VBool true);
                        ("data", Samples.flatPayload);
                        ("sources", JS.VArr [JS.VStr "proposal"]);
                        ("urls_found", JS.VArr [])]))
    as [data [Ht Hr]]; try reflexivity.
  exists data. split; [exact Ht|]. rewrite Hr. reflexivity.
Defined.

Lemma unreadable_request_witness :
  Route.POST None Samples.unreachable {| Route.formData := None |}
  = (Route.NextResponse_json
       (Route.errorBody (JS.VStr "Failed to process content")) 500, []).
Proof.
  apply (unreadable_request None Samples.unreachable {| Route.formData := None |}).
  left. reflexivity.
Defined.

(* ================================================================== *)
(** ** Further properties of the result page *)
(* ================================================================== *)

Section CardProperties.
Import JS Page.

Variable formatUSD : float -> string.
Variable numberToString : float -> string.

(** The Total Quote card shows the sum of what the three other cards
    show, a card without an amount, or with zero, counting as 0. *)
Lemma total_is_sum_of_cards (q : QuoteData) :
  card_value (totalQuoteCard q)
  = Some (orZero (card_value (guestroomCard formatUSD numberToString q))
          + orZero (card_value (meetingRoomCard q))
          + orZero (card_value (fnbCard formatUSD numberToString q)))%float.
Proof. reflexivity. Qed.

(** X14: the Total Quote card never shows the dash, whatever the record:
    it shows a formatted amount, and the formatted zero when the record
    has no guest-room, meeting-room or F&B amount at all. *)
Theorem total_card_always_amount (q : QuoteData) :
  (exists x, card_value (totalQuoteCard q) = Some x /\
             getDisplayValue formatUSD (totalQuoteCard q) = formatUSD x) /\
  (value (guestroom_total q) = None ->
   value (meeting_room_total q) = None ->
   value (fnb_total q) = None ->
   extrasField q estimated_fnb_gross = None ->
   getDisplayValue formatUSD (totalQuoteCard q) = formatUSD 0%float).
Proof.
  split.
  - eexists. split; reflexivity.
  - intros Hg Hm Hf He.
    unfold getDisplayValue, totalQuoteCard, getCalculatedTotalQuote.
    cbn [card_value]. rewrite Hg, Hm, Hf, He. reflexivity.
Qed.

(** X15: a record without a total of its own, or with a zero one, is
    exported with an empty Total Quote value although the page shows an
    amount for it: the file takes total_quote as extracted, the card the
    computed sum. *)
Theorem csv_total_not_the_card_total (q : QuoteData) :
  (forall x, value (total_quote q) = Some x -> truthyNum x = false) ->
  nth 1 (csvRows numberToString q) []
  = ["Total Quote"%string; EmptyString; statusString (status (total_quote q));
     notes (total_quote q)] /\
  exists x, card_value (totalQuoteCard q) = Some x.
Proof.
  intros H. split; [|eexists; reflexivity].
  unfold csvRows, csvRow. cbn [nth]. unfold valueCell.
  destruct (value (total_quote q)) as [x|]; [|reflexivity].
  now rewrite (H x eq_refl).
Qed.

(** X16: two records that differ only in amounts that are zero in one and
    missing in the other give the same file: zero is exported as an empty
    cell. *)
Theorem csv_zero_as_missing (q q' : QuoteData) :
  (forall field,
      In field [total_quote; guestroom_total; meeting_room_total; fnb_total] ->
      status (field q) = status (field q') /\
      notes (field q) = notes (field q') /\
      orNum (value (field q)) None = orNum (value (field q')) None) ->
  csvContent numberToString q = csvContent numberToString q'.
Proof.
  intros H.
  assert (Hcell : forall a b, orNum a None = orNum b None ->
                              valueCell numberToString a = valueCell numberToString b).
  { intros [x|] [y|]; unfold orNum, valueCell;
      try destruct (truthyNum x); try destruct (truthyNum y);
      intros E; try discriminate E; try reflexivity.
    now injection E as ->. }
  assert (Hrow : forall label field,
             In field [total_quote; guestroom_total; meeting_room_total; fnb_total] ->
             csvRow numberToString label (field q)
             = csvRow numberToString label (field q')).
  { intros label field Hin. destruct (H field Hin) as [Hs [Hn Hv]].
    unfold csvRow. now rewrite Hs, Hn, (Hcell _ _ Hv). }
  unfold csvContent, csvRows.
  rewrite (Hrow _ total_quote), (Hrow _ guestroom_total),
          (Hrow _ meeting_room_total), (Hrow _ fnb_total) by (simpl; tauto).
  reflexivity.
Qed.

(** X17: the meeting-room card carries at most one condition, and never an
    empty one. *)
Theorem conditions_never_blank (quoteData : option QuoteData) :
  List.length (getMeetingRoomConditions quoteData) <= 1 /\
  ~ In EmptyString (getMeetingRoomConditions quoteData).
Proof.
  unfold getMeetingRoomConditions.
  destruct quoteData as [q|]; [|split; [cbn; auto|intros H; exact H]].
  destruct (status (meeting_room_total q));
    [split; [cbn; auto|intros H; exact H] | split; [cbn; auto|intros H; exact H] |
    | split; [cbn; auto|intros H; exact H]].
  split; [cbn; auto|].
  intros H. destruct H as [H | H]; [|exact H]. revert H.
  set (c := orStr (provenance_snippet (meeting_room_total q))
                  (notes (meeting_room_total q))).
  unfold orStr at 1. destruct (String.eqb c EmptyString) eqn:E.
  - discriminate.
  - intros ->. discriminate E.
Qed.

(** X18: each of the four statuses has a label of its own, and none of them
    is 'Unknown'; any other string is labelled 'Unknown' and coloured as
    not_found is. *)
Theorem status_labels :
  (forall s1 s2,
      getStatusText (statusString s1) = getStatusText (statusString s2) -> s1 = s2) /\
  (forall s, getStatusText (statusString s) <> "Unknown"%string) /\
  (forall str,
      (forall s, str <> statusString s) ->
      getStatusText str = "Unknown"%string /\
      getStatusColor str = getStatusColor "not_found").
Proof.
  split; [|split].
  - intros [] []; cbn; intros H; try reflexivity; discriminate H.
  - intros []; cbn; discriminate.
  - intros str H.
    assert (E1 : String.eqb str "explicit" = false)
      by (apply String.eqb_neq; exact (H explicit)).
    assert (E2 : String.eqb str "derived" = false)
      by (apply String.eqb_neq; exact (H derived)).
    assert (E3 : String.eqb str "conditional" = false)
      by (apply String.eqb_neq; exact (H conditional)).
    assert (E4 : String.eqb str "not_found" = false)
      by (apply String.eqb_neq; exact (H not_found)).
    unfold getStatusText, getStatusColor. rewrite E1, E2, E3, E4. split; reflexivity.
Qed.

(** X19: the F&B breakdown is shown exactly when the record has a non-zero
    estimated_fnb_gross, and then that estimate, not fnb_total, is the
    amount on the F&B card. *)
Theorem fnb_breakdown_with_estimate (q : QuoteData) :
  (getFnbBreakdown formatUSD numberToString (Some q) <> None
   <-> exists gross,
         extrasField q estimated_fnb_gross = Some gross /\ truthyNum gross = true) /\
  (forall gross,
      extrasField q estimated_fnb_gross = Some gross -> truthyNum gross = true ->
      card_value (fnbCard formatUSD numberToString q) = Some gross).
Proof.
  unfold getFnbBreakdown, fnbCard, extrasField; cbn [card_value].
  destruct (extras q) as [e|].
  - destruct (estimated_fnb_gross e) as [gross|].
    + destruct (truthyNum gross) eqn:Ht; split.
      * split; [intros _; now exists gross|discriminate].
      * intros g Hg Hgt. injection Hg as <-. unfold orNum. now rewrite Ht.
      * split; [intros H; now elim H|].
        intros [g [Hg Hgt]]. injection Hg as <-. congruence.
      * intros g Hg Hgt. injection Hg as <-. congruence.
    + split; [|discriminate].
      split; [intros H; now elim H|intros [g [Hg _]]; discriminate Hg].
  - split; [|discriminate].
    split; [intros H; now elim H|intros [g [Hg _]]; discriminate Hg].
Qed.

(** X20: the guest-room breakdown is shown exactly when room_nights and
    nightly_rate are both present and non-zero; guestroom_total and
    guestroom_base play no part. *)
Theorem guestroom_breakdown_shown (q : QuoteData) :
  getGuestroomBreakdown formatUSD numberToString (Some q) <> None
  <-> exists e nights rate,
        extras q = Some e /\
        room_nights e = Some nights /\ truthyNum nights = true /\
        nightly_rate e = Some rate /\ truthyNum rate = true.
Proof.
  unfold getGuestroomBreakdown.
  destruct (extras q) as [e|].
  - destruct (room_nights e) as [n|] eqn:Hn; destruct (nightly_rate e) as [r|] eqn:Hr.
    + destruct (truthyNum n) eqn:Tn; destruct (truthyNum r) eqn:Tr; cbn [andb]; split;
        try discriminate;
        try (intros _; exists e, n, r; now repeat split);
        try (intros H; now elim H);
        intros [e' [n' [r' [He [Hn' [Tn' [Hr' Tr']]]]]]];
        injection He as <-; rewrite Hn in Hn'; rewrite Hr in Hr';
        injection Hn' as <-; injection Hr' as <-; congruence.
    + split; [intros H; now elim H|].
      intros [e' [n' [r' [He [_ [_ [Hr' _]]]]]]]. injection He as <-. congruence.
    + split; [intros H; now elim H|].
      intros [e' [n' [r' [He [Hn' _]]]]]. injection He as <-. congruence.
    + split; [intros H; now elim H|].
      intros [e' [n' [r' [He [Hn' _]]]]]. injection He as <-. congruence.
  - split; [intros H; now elim H|].
    intros [e' [n' [r' [He _]]]]. discriminate He.
Qed.

End CardProperties.

Lemma total_card_always_amount_witness :
  Page.getDisplayValue (fun _ => "$0.00") (Page.totalQuoteCard Samples.emptyQuote)
  = "$0.00".
Proof.
  apply (total_card_always_amount (fun _ => "$0.00") Samples.emptyQuote); reflexivity.
Defined.

Lemma csv_total_not_the_card_total_witness :
  nth 1 (Page.csvRows (fun _ => "0") Samples.sampleQuote) []
  = ["Total Quote"; EmptyString; "not_found"; EmptyString].
Proof.
  apply (csv_total_not_the_card_total (fun _ => "0") Samples.sampleQuote).
  intros x H. discriminate H.
Defined.

Lemma csv_zero_as_missing_witness :
  Page.csvContent (fun _ => "0") Samples.waiverQuote
  = Page.csvContent (fun _ => "0") Samples.waiverQuoteNoAmount.
Proof.
  apply (csv_zero_as_missing (fun _ => "0") Samples.waiverQuote Samples.waiverQuoteNoAmount).
  intros field H.
  repeat (destruct H as [<- | H]; [repeat split; reflexivity|]).
  contradiction.
Defined.

Lemma status_labels_witness :
  Page.getStatusText "pending" = "Unknown".
Proof.
  destruct status_labels as [_ [_ H]].
  apply (H "pending"). intros []; discriminate.
Defined.

Lemma fnb_breakdown_with_estimate_witness :
  Page.card_value (Page.fnbCard (fun _ => "$") (fun _ => "0") Samples.sampleQuote)
  = Some 13447.8%float.
Proof.
  apply (fnb_breakdown_with_estimate (fun _ => "$") (fun _ => "0") Samples.sampleQuote);
    reflexivity.
Defined.

(* ================================================================== *)
(** ** The page and the route together *)
(* ================================================================== *)

Section Submitting.
Import JS Route Page.
Local Open Scope js_scope.

Variable env : option string.
Variable fetch : string -> FormData -> option Response.
Variable typeErrorMessage : string.

Lemma crlf_nonempty (s : string) : s <> EmptyString -> crlf s <> EmptyString.
Proof.
  destruct s as [|a rest]; [intros H; now elim H|]. intros _. cbn [crlf].
  destruct (Nat.eqb (nat_of_ascii a) 10); [discriminate|].
  destruct (Nat.eqb (nat_of_ascii a) 13); [|discriminate].
  destruct rest as [|b rest2]; [discriminate|].
  destruct (Nat.eqb (nat_of_ascii b) 10); discriminate.
Qed.

Lemma not_blank_nonempty (s : string) : trimsToEmpty s = false -> s <> EmptyString.
Proof. intros H ->. discriminate H. Qed.

Lemma text_entry_present (s : string) :
  trimsToEmpty s = false -> present (Some (FString (crlf s))) = true.
Proof.
  intros H. cbn [present].
  destruct (String.eqb (crlf s) EmptyString) eqn:E; [|reflexivity].
  apply String.eqb_eq in E.
  now elim (crlf_nonempty s (not_blank_nonempty s H)).
Qed.

(** What [formData.get] finds in a form the page has built. *)
Lemma page_form_get (inputs : Inputs) :
  let form := multipart (buildFormData inputs) in
  FormData_get form "email_content"
  = (if trimsToEmpty (emailContent inputs) then None
     else Some (FString (crlf (emailContent inputs)))) /\
  FormData_get form "email_file" = option_map fileEntry (emailFile inputs) /\
  FormData_get form "proposal_file" = option_map fileEntry (proposalFile inputs) /\
  FormData_get form "proposal_url"
  = (if trimsToEmpty (proposalUrl inputs) then None
     else Some (FString (crlf (proposalUrl inputs)))) /\
  FormData_get form "file" = None.
Proof.
  unfold buildFormData.
  destruct inputs as [content file1 file2 link].
  cbn [emailContent emailFile proposalFile proposalUrl].
  destruct (trimsToEmpty content); destruct file1 as [f1|];
    destruct file2 as [f2|]; destruct (trimsToEmpty link);
    repeat split; reflexivity.
Qed.

(** What the [try] block does with a form the page has built. *)
Lemma tryBlock_on_page_form (inputs : Inputs) :
  let form := multipart (buildFormData inputs) in
  tryBlock env fetch {| formData := Some form |}
  = match form with
    | [] =>
        (Return (NextResponse_json
                   (errorBody "No content provided for extraction") 400), [])
    | _ :: _ =>
        (match fetch (MICROSERVICE_URL env ++ "/extract")%string form with
         | Some response => handleResponse response
         | None => Throw NetworkError
         end,
         [{| call_url := (MICROSERVICE_URL env ++ "/extract")%string;
             call_body := form |}])
    end.
Proof.
  intros form.
  destruct (page_form_get inputs) as [Hec [Hef [Hpf [Hpu Hlf]]]].
  fold form in Hec, Hef, Hpf, Hpu, Hlf.
  unfold tryBlock. cbn [formData]. rewrite Hec, Hef, Hpf, Hpu, Hlf.
  assert (Hform : form = multipart (buildFormData inputs)) by reflexivity.
  clearbody form. clear Hec Hef Hpf Hpu Hlf.
  unfold buildFormData in Hform.
  destruct inputs as [content file1 file2 link].
  cbn [emailContent emailFile proposalFile proposalUrl] in *.
  destruct (trimsToEmpty content) eqn:Bc; destruct file1 as [f1|];
    destruct file2 as [f2|]; destruct (trimsToEmpty link) eqn:Bl;
    cbn in Hform; subst form;
    cbn [option_map];
    rewrite ?(text_entry_present content Bc), ?(text_entry_present link Bl);
    cbn [present fileEntry negb andb orb FormData_append app isPdf];
    try reflexivity;
    destruct (fetch _ _); reflexivity.
Qed.

Lemma POST_on_page_form (inputs : Inputs) :
  let form := multipart (buildFormData inputs) in
  POST env fetch {| formData := Some form |}
  = match form with
    | [] =>
        (NextResponse_json (errorBody "No content provided for extraction") 400, [])
    | _ :: _ =>
        (match fetch (MICROSERVICE_URL env ++ "/extract")%string form with
         | Some response =>
             match handleResponse response with
             | Return r => r
             | Throw _ => NextResponse_json (errorBody "Failed to process content") 500
             end
         | None => NextResponse_json (errorBody "Failed to process content") 500
         end,
         [{| call_url := (MICROSERVICE_URL env ++ "/extract")%string;
             call_body := form |}])
    end.
Proof.
  cbv zeta. unfold POST.
  pose proof (tryBlock_on_page_form inputs) as H. cbv zeta in H. rewrite H.
  destruct (multipart (buildFormData inputs)) as [|entry rest]; [reflexivity|].
  destruct (fetch _ _) as [response|]; [|reflexivity].
  destruct (handleResponse response); reflexivity.
Qed.

(** What [handleSubmit] makes of the two bodies the route sends. *)
Lemma handleSubmit_error_body (api : FormData -> ApiOutcome) (inputs : Inputs)
  (e : JS.value) :
  api (buildFormData inputs) = Resolved (jsonRoundTrip (errorBody e)) ->
  handleSubmit api typeErrorMessage inputs
  = failed (jsonRoundTrip e ||| "Failed to process request").
Proof.
  intros H. unfold handleSubmit. rewrite H. destruct e; reflexivity.
Qed.

Lemma handleSubmit_success_body (api : FormData -> ApiOutcome) (inputs : Inputs)
  (fields : list (string * JS.value)) (s u : JS.value) :
  api (buildFormData inputs)
  = Resolved (jsonRoundTrip (successBody (VObj fields) s u)) ->
  handleSubmit api typeErrorMessage inputs
  = {| isLoading := false;
       quoteData := jsonRoundTrip (VObj fields);
       error := null;
       urls := jsonRoundTrip u ||| VArr [];
       sources_found := jsonRoundTrip s ||| VArr [] |}.
Proof.
  intros H. unfold handleSubmit. rewrite H. destruct s; destruct u; reflexivity.
Qed.

Lemma handleResponse_body (response : Response) (r : NextResponse) :
  handleResponse response = Return r ->
  (exists e, resp_body r = errorBody e) \/
  (exists fields s u, resp_body r = successBody (VObj fields) s u).
Proof.
  intros H. apply handleResponse_returns in H.
  destruct H as [_ [result [_ [[_ ->] | [_ [data [Hd ->]]]]]]].
  - left. eexists. reflexivity.
  - right. destruct (transform_returns_object _ _ Hd) as [fields ->].
    do 3 eexists. reflexivity.
Qed.

(** X21: the form the page submits holds only entries named email_content,
    email_file, proposal_file or proposal_url, each at most once and none
    empty; it never holds the legacy [file]. *)
Theorem page_form_well_formed (inputs : Inputs) :
  NoDup (map fst (buildFormData inputs)) /\
  (forall k v, In (k, v) (buildFormData inputs) ->
     In k forwardedKeys /\ k <> "file"%string /\ present (Some v) = true).
Proof.
  clear env fetch typeErrorMessage.
  unfold buildFormData.
  destruct inputs as [content file1 file2 link].
  cbn [emailContent emailFile proposalFile proposalUrl].
  assert (P : forall s, trimsToEmpty s = false -> present (Some (FString s)) = true).
  { intros s H. cbn [present].
    destruct (String.eqb s EmptyString) eqn:E; [|reflexivity].
    apply String.eqb_eq in E. now elim (not_blank_nonempty s H). }
  destruct (trimsToEmpty content) eqn:Bc; destruct file1 as [f1|];
    destruct file2 as [f2|]; destruct (trimsToEmpty link) eqn:Bl;
    cbn [negb FormData_append app map fst];
    (split; [repeat constructor; simpl; intuition discriminate|]);
    intros k v Hin; cbn [In] in Hin;
    repeat (destruct Hin as [Hin | Hin]; [injection Hin as <- <-|]);
    try contradiction;
    (split; [simpl; tauto|]); (split; [discriminate|]);
    first [ now apply P | reflexivity ].
Qed.

(** X22: when the email text and the URL hold nothing but white space and
    no file is chosen, the route is reached with an empty form, answers
    without calling the extraction service, and the page shows 'No content
    provided for extraction'; yet the submit button is enabled as soon as
    the email text is not empty. *)
Theorem blank_inputs_rejected (inputs : Inputs) :
  trimsToEmpty (emailContent inputs) = true ->
  emailFile inputs = None ->
  proposalFile inputs = None ->
  trimsToEmpty (proposalUrl inputs) = true ->
  snd (POST env fetch {| formData := Some (multipart (buildFormData inputs)) |}) = [] /\
  handleSubmit (viaRoute env fetch) typeErrorMessage inputs
  = failed (VStr "No content provided for extraction") /\
  (emailContent inputs <> EmptyString -> submitDisabled false inputs = false).
Proof.
  intros Hc Hf1 Hf2 Hl.
  assert (Hform : buildFormData inputs = []).
  { unfold buildFormData. now rewrite Hc, Hf1, Hf2, Hl. }
  pose proof (POST_on_page_form inputs) as HP. cbv zeta in HP.
  rewrite Hform in *. cbn [multipart map] in *.
  split; [now rewrite HP|]. split.
  - apply (handleSubmit_error_body (viaRoute env fetch) inputs
             (VStr "No content provided for extraction")).
    unfold viaRoute. rewrite Hform. cbn [multipart map]. now rewrite HP.
  - intros Hne. unfold submitDisabled. cbn [orb].
    apply String.eqb_neq in Hne. now rewrite Hne.
Qed.


(** X24: whatever is typed and however the extraction service behaves, a
    submission through the route ends with the page no longer loading and
    in one of two states: a record to show and no error, or no record, no
    URLs, no sources and an error message that is shown. *)
Theorem submit_outcome (inputs : Inputs) :
  let st := handleSubmit (viaRoute env fetch) typeErrorMessage inputs in
  isLoading st = false /\
  ((error st = null /\ exists fields, quoteData st = VObj fields) \/
   (quoteData st = null /\ truthy (error st) = true /\
    urls st = VArr [] /\ sources_found st = VArr [])).
Proof.
  assert (Herr : forall e,
    let st := failed (jsonRoundTrip e ||| "Failed to process request") in
    isLoading st = false /\
    ((error st = null /\ exists fields, quoteData st = VObj fields) \/
     (quoteData st = null /\ truthy (error st) = true /\
      urls st = VArr [] /\ sources_found st = VArr []))).
  { intros e st. split; [reflexivity|]. right. repeat split.
    unfold st, failed; cbn [error]. unfold jsOr.
    destruct (truthy (jsonRoundTrip e)) eqn:E; [exact E|reflexivity]. }
  assert (Hbody :
    (exists e, resp_body (fst (POST env fetch
                 {| formData := Some (multipart (buildFormData inputs)) |}))
               = errorBody e) \/
    (exists fields s u,
        resp_body (fst (POST env fetch
          {| formData := Some (multipart (buildFormData inputs)) |}))
        = successBody (VObj fields) s u)).
  { pose proof (POST_on_page_form inputs) as HP. cbv zeta in HP. rewrite HP.
    destruct (multipart (buildFormData inputs)) as [|entry rest];
      [left; eexists; reflexivity|].
    cbn [fst].
    destruct (fetch _ _) as [response|]; [|left; eexists; reflexivity].
    destruct (handleResponse response) as [r|x] eqn:Hr;
      [|left; eexists; reflexivity].
    now apply handleResponse_body in Hr. }
  destruct Hbody as [[e He] | [fields [s [u Hs]]]].
  - rewrite (handleSubmit_error_body (viaRoute env fetch) inputs e).
    + apply Herr.
    + unfold viaRoute. now rewrite He.
  - rewrite (handleSubmit_success_body (viaRoute env fetch) inputs fields s u).
    + cbn [isLoading error quoteData]. split; [reflexivity|]. left.
      split; [reflexivity|]. cbn [jsonRoundTrip]. eexists. reflexivity.
    + unfold viaRoute. now rewrite Hs.
Qed.

(** X25: when something is submitted and the extraction service fails other
    than by reporting [success: false], the page shows 'Failed to process
    content'. *)
Theorem submit_upstream_failure (inputs : Inputs) (outcome : option Response) :
  buildFormData inputs <> [] ->
  (forall body, fetch (MICROSERVICE_URL env ++ "/extract")%string body = outcome) ->
  upstreamThrows outcome ->
  handleSubmit (viaRoute env fetch) typeErrorMessage inputs
  = failed (VStr "Failed to process content").
Proof.
  intros Hne Hfetch Hthrows.
  apply (handleSubmit_error_body (viaRoute env fetch) inputs
           (VStr "Failed to process content")).
  unfold viaRoute. do 2 f_equal.
  pose proof (POST_on_page_form inputs) as HP. cbv zeta in HP. rewrite HP.
  assert (Hm : multipart (buildFormData inputs) <> []).
  { destruct (buildFormData inputs); [now elim Hne|discriminate]. }
  destruct (multipart (buildFormData inputs)) as [|entry rest]; [now elim Hm|].
  cbn [fst]. rewrite Hfetch.
  destruct outcome as [response|]; [|reflexivity].
  unfold upstreamThrows in Hthrows. unfold handleResponse.
  destruct Hthrows as [Hok | Hjson]; [now rewrite Hok|].
  destruct (ok response); [|reflexivity]. cbn [negb].
  destruct (json response) as [result|]; [|reflexivity]. cbn [bind].
  destruct Hjson as [Hnull | [Hs Hdata]]; [now rewrite Hnull|].
  destruct (isNullish result); [reflexivity|].
  rewrite Hs. cbn [negb].
  unfold transformMicroserviceResponse. now rewrite Hdata.
Qed.

(** X26: when the extraction service reports a failure, the page shows the
    service's own error if that is truthy, and 'Failed to process request'
    if the service gave none. *)
Theorem submit_reported_failure (inputs : Inputs) (response : Response)
  (result : JS.value) :
  buildFormData inputs <> [] ->
  (forall body,
     fetch (MICROSERVICE_URL env ++ "/extract")%string body = Some response) ->
  ok response = true ->
  json response = Some result ->
  isNullish result = false ->
  truthy (result # "success") = false ->
  handleSubmit (viaRoute env fetch) typeErrorMessage inputs
  = failed (jsonRoundTrip (result # "error") ||| "Failed to process request") /\
  (result # "error" = undefined ->
   handleSubmit (viaRoute env fetch) typeErrorMessage inputs
   = failed (VStr "Failed to process request")).
Proof.
  intros Hne Hfetch Hok Hjson Hnn Hs.
  assert (H : handleSubmit (viaRoute env fetch) typeErrorMessage inputs
              = failed (jsonRoundTrip (result # "error") ||| "Failed to process request")).
  { apply (handleSubmit_error_body (viaRoute env fetch) inputs (result # "error")).
    unfold viaRoute. do 2 f_equal.
    pose proof (POST_on_page_form inputs) as HP. cbv zeta in HP. rewrite HP.
    assert (Hm : multipart (buildFormData inputs) <> []).
    { destruct (buildFormData inputs); [now elim Hne|discriminate]. }
    destruct (multipart (buildFormData inputs)) as [|entry rest]; [now elim Hm|].
    cbn [fst]. rewrite Hfetch.
    unfold handleResponse. rewrite Hok, Hjson. cbn [negb bind].
    now rewrite Hnn, Hs. }
  split; [exact H|]. intros Hu. rewrite H, Hu. reflexivity.
Qed.

End Submitting.

Lemma page_form_well_formed_witness :
  Route.present (Some (Route.FString "Rate is $192 per night")) = true.
Proof.
  destruct (page_form_well_formed Samples.emailInputs) as [_ H].
  apply (H "email_content" (Route.FString "Rate is $192 per night")).
  left. reflexivity.
Defined.

Lemma blank_inputs_rejected_witness :
  Page.handleSubmit (Page.viaRoute None Samples.unreachable) "TypeError"
    Samples.blankInputs
  = Page.failed (JS.VStr "No content provided for extraction") /\
  Page.submitDisabled false Samples.blankInputs = false.
Proof.
  destruct (blank_inputs_rejected None Samples.unreachable "TypeError" Samples.blankInputs)
    as [_ [H1 H2]]; try reflexivity.
  split; [exact H1|]. apply H2. discriminate.
Defined.


Lemma submit_upstream_failure_witness :
  Page.handleSubmit (Page.viaRoute None (Samples.answering Samples.badGateway))
    "TypeError" Samples.emailInputs
  = Page.failed (JS.VStr "Failed to process content").
Proof.
  apply (submit_upstream_failure None (Samples.answering Samples.badGateway)
           "TypeError" Samples.emailInputs (Some Samples.badGateway)).
  - discriminate.
  - reflexivity.
  - left. reflexivity.
Defined.

Lemma submit_reported_failure_witness :
  Page.handleSubmit (Page.viaRoute None (Samples.answering Samples.reportedFailure))
    "TypeError" Samples.emailInputs
  = Page.failed (JS.VStr "No text could be extracted").
Proof.
  apply (submit_reported_failure None (Samples.answering Samples.reportedFailure)
           "TypeError" Samples.emailInputs Samples.reportedFailure
           (JS.VObj [("success", JS.VBool false);
                     ("error", JS.VStr "No text could be extracted")]));
    try reflexivity.
  discriminate.
Defined.
